(** * ReadyCatholic news aggregator: a shallow embedding of
      [catholic_news_aggregator.py] and the properties of its headline
      collection and page rendering.

    Python text is modelled as [string]: the bytes of its UTF-8 encoding.
    The keywords the classifier looks for are ASCII, so searching the bytes
    and searching the code points agree. *)

From Stdlib Require Import String Ascii List ZArith Lia Bool Arith DecimalString.
Import ListNotations.
Open Scope string_scope.
Open Scope list_scope.

(** ** The Python built-ins the script relies on *)

Module Py.

(** [d.get(key, default)] on a dictionary whose field may be absent. *)
Definition get {A : Type} (field : option A) (default : A) : A :=
  match field with
  | Some v => v
  | None => default
  end.

(** [str.lower()], on the ASCII range: the letters A..Z (codes 65..90) move
    to a..z, every other byte stays, the bytes of a non-ASCII code point
    included.  Python lowers two non-ASCII code points to ASCII letters: the
    Kelvin sign to k, which no keyword of the classifier contains, and the
    dotted capital I to i followed by a combining dot, which no keyword
    continues; so the keyword tests are the same on both. *)
Definition lower_char (c : ascii) : ascii :=
  let n := nat_of_ascii c in
  if ((65 <=? n)%nat && (n <=? 90)%nat)%bool then ascii_of_nat (n + 32) else c.

Fixpoint lower (s : string) : string :=
  match s with
  | EmptyString => EmptyString
  | String c rest => String (lower_char c) (lower rest)
  end.

(** [needle in hay] for two strings: [needle] occurs as a substring. *)
Fixpoint contains (needle hay : string) : bool :=
  String.prefix needle hay ||
  match hay with
  | EmptyString => false
  | String _ rest => contains needle rest
  end.

(** [x in [a, b, c]] for a list of strings. *)
Definition mem (x : string) (l : list string) : bool :=
  existsb (String.eqb x) l.

(** The double quote, code 34, and the apostrophe, code 39. *)
Definition dquote : ascii := ascii_of_nat 34.
Definition squote : ascii := ascii_of_nat 39.
Definition q : string := String dquote EmptyString.

(** [html.escape(s)] with its default [quote=True]: the successive
    [replace] calls of the library amount to one pass over the characters,
    because no replacement text contains a character replaced later. *)
Definition escape_char (c : ascii) : string :=
  if Ascii.eqb c "&"%char then "&amp;"
  else if Ascii.eqb c "<"%char then "&lt;"
  else if Ascii.eqb c ">"%char then "&gt;"
  else if Ascii.eqb c dquote then "&quot;"
  else if Ascii.eqb c squote then "&#x27;"
  else String c EmptyString.

Fixpoint escape (s : string) : string :=
  match s with
  | EmptyString => EmptyString
  | String c rest => escape_char c ++ escape rest
  end.

(** [l[:k]]: the first [k] items, and for a negative [k] all but the last
    [-k] items. *)
Definition slice_to {A : Type} (k : Z) (l : list A) : list A :=
  if (k <? 0)%Z
  then firstn (List.length l - Z.to_nat (- k)) l
  else firstn (Z.to_nat k) l.

(** [enumerate(l)], counting from [start]. *)
Fixpoint enumerate_from {A : Type} (start : nat) (l : list A) : list (nat * A) :=
  match l with
  | [] => []
  | x :: rest => (start, x) :: enumerate_from (S start) rest
  end.

Definition enumerate {A : Type} (l : list A) : list (nat * A) :=
  enumerate_from 0 l.

End Py.

(** ** Data *)

(** [CATHOLIC_NEWS_SOURCES]: a dictionary from source name to feed URL, kept
    as the list of its items in insertion order, which is the order
    [.items()] iterates in. *)
Definition CATHOLIC_NEWS_SOURCES : list (string * string) :=
  [ ("Vatican News", "https://www.vaticannews.va/en.rss.xml");
    ("Catholic News Agency", "https://www.catholicnewsagency.com/feed");
    ("National Catholic Register", "https://www.ncregister.com/feed");
    ("EWTN News", "https://www.ewtnnews.com/feed");
    ("Aleteia", "https://aleteia.org/feed/");
    ("Catholic World Report", "https://www.catholicworldreport.com/feed/");
    ("Crux", "https://cruxnow.com/feed/");
    ("LifeSiteNews", "https://www.lifesitenews.com/rss/global");
    ("Big Pulpit", "https://bigpulpit.com/feed/");
    ("Catholic Culture", "https://www.catholicculture.org/feeds/news_rss.cfm");
    ("Catholic Daily Reflections", "https://catholic-daily-reflections.com/feed/");
    ("Catholic Stand", "https://catholicstand.com/feed/");
    ("Catholic Education",
     "https://www.catholiceducation.org/en/component/obrss/catholic-education-resource-center.feed");
    ("ChurchPOP", "https://www.churchpop.com/feed/");
    ("New Advent", "https://www.newadvent.org/index.html");
    ("OSV News", "https://www.osvnews.com/feed/");
    ("Spirit Daily", "https://spiritdaily.com/feed/");
    ("TFP.org", "https://www.tfp.org/feed/");
    ("The Catholic Herald", "https://thecatholicherald.com/feed/");
    ("The Pillar", "https://www.pillarcatholic.com/feed");
    ("Zenit", "https://zenit.org/feed/") ].

(** A feed entry as the script reads it: [title] and [link], either of which
    the feed may leave out. *)
Record Entry : Type := mkEntry {
  entry_title : option string;
  entry_link : option string
}.

(** What [feedparser.parse(url)] does for the script: it raises, with the
    text [str(e)] of the exception, or it returns a feed with its
    [entries]. *)
Inductive FetchResult : Type :=
| Raises (message : string)
| Feed (entries : list Entry).

(** The network during one run: what parsing each URL gives. *)
Definition Fetcher : Type := string -> FetchResult.

(** The dictionary built for each entry. *)
Record Headline : Type := mkHeadline {
  title : string;
  link : string;
  source : string
}.

(** The seven keys of the [headlines] dictionary, in the order the script
    creates them. *)
Inductive Category : Type :=
| breaking | vatican | america | faith | culture | world | education.

Definition categories : list Category :=
  [breaking; vatican; america; faith; culture; world; education].

Definition category_key (c : Category) : string :=
  match c with
  | breaking => "breaking"
  | vatican => "vatican"
  | america => "america"
  | faith => "faith"
  | culture => "culture"
  | world => "world"
  | education => "education"
  end.

(** The [headlines] dictionary: one list per key. *)
Record CategorySet : Type := mkCategorySet {
  cs_breaking : list Headline;
  cs_vatican : list Headline;
  cs_america : list Headline;
  cs_faith : list Headline;
  cs_culture : list Headline;
  cs_world : list Headline;
  cs_education : list Headline
}.

(** [headlines[c]] *)
Definition lookup (c : Category) (hs : CategorySet) : list Headline :=
  match c with
  | breaking => cs_breaking hs
  | vatican => cs_vatican hs
  | america => cs_america hs
  | faith => cs_faith hs
  | culture => cs_culture hs
  | world => cs_world hs
  | education => cs_education hs
  end.

(** [headlines[c] = l] *)
Definition assign (c : Category) (l : list Headline) (hs : CategorySet) : CategorySet :=
  match c with
  | breaking => mkCategorySet l (cs_vatican hs) (cs_america hs) (cs_faith hs)
                              (cs_culture hs) (cs_world hs) (cs_education hs)
  | vatican => mkCategorySet (cs_breaking hs) l (cs_america hs) (cs_faith hs)
                             (cs_culture hs) (cs_world hs) (cs_education hs)
  | america => mkCategorySet (cs_breaking hs) (cs_vatican hs) l (cs_faith hs)
                             (cs_culture hs) (cs_world hs) (cs_education hs)
  | faith => mkCategorySet (cs_breaking hs) (cs_vatican hs) (cs_america hs) l
                           (cs_culture hs) (cs_world hs) (cs_education hs)
  | culture => mkCategorySet (cs_breaking hs) (cs_vatican hs) (cs_america hs)
                             (cs_faith hs) l (cs_world hs) (cs_education hs)
  | world => mkCategorySet (cs_breaking hs) (cs_vatican hs) (cs_america hs)
                           (cs_faith hs) (cs_culture hs) l (cs_education hs)
  | education => mkCategorySet (cs_breaking hs) (cs_vatican hs) (cs_america hs)
                               (cs_faith hs) (cs_culture hs) (cs_world hs) l
  end.

(** [headlines[c].append(h)] *)
Definition append (c : Category) (h : Headline) (hs : CategorySet) : CategorySet :=
  assign c (lookup c hs ++ [h]) hs.

(** The dictionary [fetch_headlines] starts from: every key with [[]]. *)
Definition empty_headlines : CategorySet :=
  mkCategorySet [] [] [] [] [] [] [].

Definition Category_eqb (a b : Category) : bool :=
  String.eqb (category_key a) (category_key b).

(** ** [fetch_headlines] *)

(** The [if]/[elif] chain of the inner loop: the category of the entry at
    position [i] of the slice taken from [source_name], whose lowercased
    title is [title_lower]. *)
Definition classify (i : nat) (source_name title_lower : string) : Category :=
  if (i =? 0)%nat && Py.mem source_name ["Vatican News"; "The Pillar"; "OSV News"]
  then breaking
  else if Py.contains "pope" title_lower || Py.contains "vatican" title_lower
          || String.eqb source_name "Vatican News"
  then vatican
  else if Py.mem source_name ["National Catholic Register"; "OSV News"; "The Pillar"]
          || Py.contains "us" title_lower
  then america
  else if Py.mem source_name ["Catholic Daily Reflections"; "Catholic Stand"; "Spirit Daily"]
          || Py.contains "faith" title_lower
  then faith
  else if Py.mem source_name ["LifeSiteNews"; "TFP.org"; "ChurchPOP"]
          || Py.contains "life" title_lower || Py.contains "culture" title_lower
  then culture
  else if Py.mem source_name ["Crux"; "Zenit"; "The Catholic Herald"]
          || Py.contains "world" title_lower
  then world
  else if String.eqb source_name "Catholic Education"
          || Py.contains "school" title_lower || Py.contains "education" title_lower
  then education
  else faith.

(** The [headline] dictionary built from an entry. *)
Definition make_headline (source_name : string) (entry : Entry) : Headline :=
  {| title := Py.escape (Py.get (entry_title entry) "No title");
     link := Py.get (entry_link entry) "#";
     source := source_name |}.

(** [title_lower = entry.get('title', '').lower()] *)
Definition title_lower_of (entry : Entry) : string :=
  Py.lower (Py.get (entry_title entry) "").

(** The category the chain picks for an entry. *)
Definition entry_category (i : nat) (source_name : string) (entry : Entry) : Category :=
  classify i source_name (title_lower_of entry).

(** One turn of the inner loop. *)
Definition process_entry (source_name : string) (hs : CategorySet)
    (ie : nat * Entry) : CategorySet :=
  let (i, entry) := ie in
  append (entry_category i source_name entry) (make_headline source_name entry) hs.

(** The state a run threads through: the dictionary being filled and the
    lines printed so far. *)
Record World : Type := mkWorld {
  headlines : CategorySet;
  stdout : list string
}.

Definition print (line : string) (w : World) : World :=
  {| headlines := headlines w; stdout := stdout w ++ [line] |}.

(** The inner loop over [enumerate(feed.entries[:max_per_source])]. *)
Definition process_entries (source_name : string) (max_per_source : Z)
    (entries : list Entry) (hs : CategorySet) : CategorySet :=
  fold_left (process_entry source_name)
            (Py.enumerate (Py.slice_to max_per_source entries)) hs.

(** One turn of the outer loop: the [try] block and its [except]. *)
Definition process_source (fetch : Fetcher) (max_per_source : Z) (w : World)
    (item : string * string) : World :=
  let (source_name, feed_url) := item in
  let w := print ("  Fetching from " ++ source_name ++ "...") w in
  match fetch feed_url with
  | Raises message =>
      print ("  Error fetching from " ++ source_name ++ ": " ++ message) w
  | Feed [] =>
      print ("    Warning: No entries found for " ++ source_name) w
  | Feed entries =>
      {| headlines := process_entries source_name max_per_source entries (headlines w);
         stdout := stdout w |}
  end.

(** The outer loop, over any list of sources. *)
Definition collect (sources : list (string * string)) (fetch : Fetcher)
    (max_per_source : Z) (w : World) : World :=
  fold_left (process_source fetch max_per_source) sources w.

(** [limit = 15 if category != 'breaking' else 5] *)
Definition limit_of (c : Category) : Z :=
  if negb (Category_eqb c breaking) then 15%Z else 5%Z.

(** The closing loop: every list cut to its limit. *)
Definition truncate (hs : CategorySet) : CategorySet :=
  fold_left (fun acc c => assign c (Py.slice_to (limit_of c) (lookup c acc)) acc)
            categories hs.

(** The world before the first source is fetched. *)
Definition initial_world : World :=
  print "Fetching headlines for ReadyCatholic..."
        {| headlines := empty_headlines; stdout := [] |}.

(** The whole of [fetch_headlines] over a given list of sources: the world
    it leaves, whose [headlines] is the returned dictionary. *)
Definition run_fetch_headlines (sources : list (string * string)) (fetch : Fetcher)
    (max_per_source : Z) : World :=
  let w := collect sources fetch max_per_source initial_world in
  {| headlines := truncate (headlines w); stdout := stdout w |}.

(** [fetch_headlines(max_per_source)]: the dictionary returned, for the
    sources of the script. *)
Definition fetch_headlines (fetch : Fetcher) (max_per_source : Z) : CategorySet :=
  headlines (run_fetch_headlines CATHOLIC_NEWS_SOURCES fetch max_per_source).

(** ** [generate_html] *)

(** The reading of the clock, [datetime.now(ZoneInfo("America/New_York"))],
    is an input of the model: the date and the time of day it shows in that
    zone. *)
Inductive Weekday : Type :=
| Monday | Tuesday | Wednesday | Thursday | Friday | Saturday | Sunday.

Inductive Month : Type :=
| January | February | March | April | May | June
| July | August | September | October | November | December.

Record DateTime : Type := mkDateTime {
  dt_year : nat;
  dt_month : Month;
  dt_day : nat;
  dt_weekday : Weekday;
  dt_hour : nat;
  dt_minute : nat;
  dt_second : nat
}.

(** [%A] *)
Definition weekday_name (d : Weekday) : string :=
  match d with
  | Monday => "Monday" | Tuesday => "Tuesday" | Wednesday => "Wednesday"
  | Thursday => "Thursday" | Friday => "Friday" | Saturday => "Saturday"
  | Sunday => "Sunday"
  end.

(** [%B] *)
Definition month_name (m : Month) : string :=
  match m with
  | January => "January" | February => "February" | March => "March"
  | April => "April" | May => "May" | June => "June" | July => "July"
  | August => "August" | September => "September" | October => "October"
  | November => "November" | December => "December"
  end.

Definition decimal (n : nat) : string :=
  NilEmpty.string_of_uint (Nat.to_uint n).

(** [%d]: the day of the month on two digits. *)
Definition two_digits (n : nat) : string :=
  if (n <? 10)%nat then "0" ++ decimal n else decimal n.

(** [now_est.strftime('%A, %B %d, %Y')] *)
Definition date_string_of (now_est : DateTime) : string :=
  weekday_name (dt_weekday now_est) ++ ", " ++ month_name (dt_month now_est)
  ++ " " ++ two_digits (dt_day now_est) ++ ", " ++ decimal (dt_year now_est).

(** The body of the loop of [format_items]: the block of one headline. *)
Definition news_item (item : Headline) : string :=
  "
                <div class=" ++ Py.q ++ "news-item" ++ Py.q ++ ">
                    <a href=" ++ Py.q ++ link item ++ Py.q ++ " target=" ++ Py.q ++ "_blank" ++ Py.q ++ ">" ++ title item ++ "</a>
                    <div class=" ++ Py.q ++ "source" ++ Py.q ++ ">" ++ source item ++ "</div>
                </div>
            ".

(** [format_items(items)]: [html] starts empty and grows by one block per
    item. *)
Definition format_items (items : list Headline) : string :=
  fold_left (fun html item => (html ++ news_item item)%string) items "".

(** The body of the loop of [format_featured]. *)
Definition featured_item (item : Headline) : string :=
  "
                <div class=" ++ Py.q ++ "featured-item" ++ Py.q ++ ">
                    <a href=" ++ Py.q ++ link item ++ Py.q ++ " target=" ++ Py.q ++ "_blank" ++ Py.q ++ ">" ++ title item ++ "</a>
                    <div class=" ++ Py.q ++ "source" ++ Py.q ++ ">" ++ source item ++ "</div>
                </div>
            ".

Definition format_featured (items : list Headline) : string :=
  fold_left (fun html item => (html ++ featured_item item)%string) items "".

(** The fixed text of [html_template], cut at its eight holes. *)

Definition template_0 : string :=
  "<!DOCTYPE html>
<html lang=" ++ Py.q ++ "en" ++ Py.q ++ ">
<head>
    <meta charset=" ++ Py.q ++ "UTF-8" ++ Py.q ++ ">
    <meta name=" ++ Py.q ++ "viewport" ++ Py.q ++ " content=" ++ Py.q ++ "width=device-width, initial-scale=1.0" ++ Py.q ++ ">
    <title>READY CATHOLIC</title>
    <style>
        * { margin: 0; padding: 0; box-sizing: border-box; }
        body { font-family: 'Courier New', monospace; background-color: #f5f5f5; color: #333; line-height: 1.4; font-size: 13px; }
        .container { max-width: 1200px; margin: 0 auto; background-color: #ffffff; padding: 15px; border: 1px solid #ddd; }
        .header { text-align: center; border-bottom: 3px solid #000; padding-bottom: 10px; margin-bottom: 15px; }
        .header h1 { font-size: 38px; font-weight: bold; font-style: italic; letter-spacing: -1px; margin-bottom: 5px; text-transform: uppercase; }
        .header .tagline { font-size: 12px; font-weight: bold; color: #000; margin-bottom: 5px; }
        .header .timestamp { font-size: 12px; color: #444; font-weight: bold; text-transform: uppercase; margin-top: 5px; }
        .main-content { display: grid; grid-template-columns: 1fr 1fr 1fr; gap: 20px; }
        .column { display: flex; flex-direction: column; gap: 15px; }
        .news-item { border-bottom: 1px solid #eee; padding-bottom: 8px; margin-bottom: 8px; }
        .news-item a { color: #0000EE; text-decoration: none; font-weight: bold; font-size: 14px; display: block; }
        .news-item a:hover { text-decoration: underline; }
        .news-item .source { font-size: 10px; color: #888; text-transform: uppercase; margin-top: 2px; }
        .featured-section { background-color: #fff; border: 2px solid #000; padding: 15px; margin-bottom: 20px; }
        .featured-section h2 { font-size: 16px; font-weight: bold; margin-bottom: 10px; border-bottom: 1px solid #000; }
        .featured-item { margin-bottom: 12px; }
        .featured-item a { font-size: 18px; color: #000; font-weight: 900; text-decoration: none; line-height: 1.1; }
        .featured-item a:hover { background: #000; color: #fff; }
        .section-header { font-size: 14px; font-weight: bold; background: #000; color: #fff; padding: 4px 8px; margin-bottom: 10px; }
        .divider { border-top: 2px solid #000; margin: 20px 0; }
        .footer { text-align: center; padding: 20px; font-size: 11px; border-top: 1px solid #ddd; }
        @media (max-width: 768px) { .main-content { grid-template-columns: 1fr; } }
    </style>
</head>
<body>
    <div class=" ++ Py.q ++ "container" ++ Py.q ++ ">
        <div class=" ++ Py.q ++ "header" ++ Py.q ++ ">
            <h1>READY CATHOLIC</h1>
            <div class=" ++ Py.q ++ "tagline" ++ Py.q ++ ">DAILY CATHOLIC NEWS & UPDATES</div>
            <div class=" ++ Py.q ++ "timestamp" ++ Py.q ++ ">".

Definition template_1 : string :=
  "</div>
        </div>

        <div class=" ++ Py.q ++ "featured-section" ++ Py.q ++ ">
            <h2>⚡ TOP STORIES</h2>
            ".

Definition template_2 : string :=
  "
        </div>

        <div class=" ++ Py.q ++ "main-content" ++ Py.q ++ ">
            <div class=" ++ Py.q ++ "column" ++ Py.q ++ ">
                <div class=" ++ Py.q ++ "section-header" ++ Py.q ++ ">VATICAN & POPE</div>
                ".

Definition template_3 : string :=
  "
                
                <div class=" ++ Py.q ++ "section-header" ++ Py.q ++ ">CHURCH IN AMERICA</div>
                ".

Definition template_4 : string :=
  "
            </div>

            <div class=" ++ Py.q ++ "column" ++ Py.q ++ ">
                <div class=" ++ Py.q ++ "section-header" ++ Py.q ++ ">FAITH & SPIRITUALITY</div>
                ".

Definition template_5 : string :=
  "
                
                <div class=" ++ Py.q ++ "section-header" ++ Py.q ++ ">CULTURE & LIFE</div>
                ".

Definition template_6 : string :=
  "
            </div>

            <div class=" ++ Py.q ++ "column" ++ Py.q ++ ">
                <div class=" ++ Py.q ++ "section-header" ++ Py.q ++ ">WORLD CHURCH</div>
                ".

Definition template_7 : string :=
  "
                
                <div class=" ++ Py.q ++ "section-header" ++ Py.q ++ ">EDUCATION & YOUTH</div>
                ".

Definition template_8 : string :=
  "
            </div>
        </div>

        <div class=" ++ Py.q ++ "divider" ++ Py.q ++ "></div>

        <div class=" ++ Py.q ++ "footer" ++ Py.q ++ ">
            <p><strong>READY CATHOLIC</strong></p>
            <p>Catholic news aggregator.</p>
            <p>© 2026 Ready Catholic. All rights reserved.</p>
        </div>
    </div>
</body>
</html>
".

(** [generate_html(headlines)], with the date string the clock gave. *)
Definition generate_html_dated (hs : CategorySet) (date_string : string) : string :=
  template_0 ++ date_string
  ++ template_1 ++ format_featured (lookup breaking hs)
  ++ template_2 ++ format_items (lookup vatican hs)
  ++ template_3 ++ format_items (lookup america hs)
  ++ template_4 ++ format_items (lookup faith hs)
  ++ template_5 ++ format_items (lookup culture hs)
  ++ template_6 ++ format_items (lookup world hs)
  ++ template_7 ++ format_items (lookup education hs)
  ++ template_8.

(** [generate_html(headlines)] when the clock reads [now_est]. *)
Definition generate_html (hs : CategorySet) (now_est : DateTime) : string :=
  generate_html_dated hs (date_string_of now_est).


(** ** Notions the properties are stated with *)

(** The number of dictionaries held by the seven lists together. *)
Definition total (hs : CategorySet) : nat :=
  list_sum (map (fun c => List.length (lookup c hs)) categories).

(** The limits of the closing loop as list lengths. *)
Definition cap (c : Category) : nat :=
  match c with
  | breaking => 5
  | _ => 15
  end.

(** The headlines an inner loop makes from the enumerated entries, each with
    the category that receives it, in the order they are made. *)
Definition classified (source_name : string) (ies : list (nat * Entry))
    : list (Category * Headline) :=
  map (fun ie => (entry_category (fst ie) source_name (snd ie),
                  make_headline source_name (snd ie))) ies.

(** What one source contributes during a run. *)
Definition produced (fetch : Fetcher) (max_per_source : Z) (item : string * string)
    : list (Category * Headline) :=
  match fetch (snd item) with
  | Raises _ => []
  | Feed entries =>
      classified (fst item) (Py.enumerate (Py.slice_to max_per_source entries))
  end.

(** The part of a list of classified headlines that goes to category [c]. *)
Definition bucket (c : Category) (l : list (Category * Headline)) : list Headline :=
  map snd (filter (fun p => Category_eqb (fst p) c) l).

(** The fetch of a source failed, or gave a feed without entries. *)
Definition gives_nothing (fetch : Fetcher) (item : string * string) : bool :=
  match fetch (snd item) with
  | Raises _ => true
  | Feed [] => true
  | Feed (_ :: _) => false
  end.

(** The sources that may reach the top stories. *)
Definition breaking_sources : list string :=
  ["Vatican News"; "The Pillar"; "OSV News"].

(** The decision sequence as the design document words it: an ordered list of
    tagged rules, the first match wins, and [faith] when none matches. *)
Definition Rule : Type := nat -> string -> string -> bool.

Definition spec_rules : list (Rule * Category) :=
  [ (fun i s _ => (i =? 0)%nat && Py.mem s ["Vatican News"; "The Pillar"; "OSV News"],
     breaking);
    (fun _ s t => Py.contains "pope" t || Py.contains "vatican" t
                  || String.eqb s "Vatican News",
     vatican);
    (fun _ s t => Py.mem s ["National Catholic Register"; "OSV News"; "The Pillar"]
                  || Py.contains "us" t,
     america);
    (fun _ s t => Py.mem s ["Catholic Daily Reflections"; "Catholic Stand"; "Spirit Daily"]
                  || Py.contains "faith" t,
     faith);
    (fun _ s t => Py.mem s ["LifeSiteNews"; "TFP.org"; "ChurchPOP"]
                  || Py.contains "life" t || Py.contains "culture" t,
     culture);
    (fun _ s t => Py.mem s ["Crux"; "Zenit"; "The Catholic Herald"]
                  || Py.contains "world" t,
     world);
    (fun _ s t => String.eqb s "Catholic Education"
                  || Py.contains "school" t || Py.contains "education" t,
     education) ].

Fixpoint first_match (rules : list (Rule * Category)) (i : nat) (s t : string)
    : option Category :=
  match rules with
  | [] => None
  | (applies, c) :: rest =>
      if applies i s t then Some c else first_match rest i s t
  end.

Definition spec_classify (i : nat) (s t : string) : Category :=
  Py.get (first_match spec_rules i s t) faith.

(** ** Feeds used as concrete runs *)

(** Three entries whose titles trigger no keyword. *)
Definition plain_entries : list Entry :=
  [ mkEntry (Some "Item A") (Some "https://example.org/a");
    mkEntry (Some "Item B") (Some "https://example.org/b");
    mkEntry (Some "Item C") (Some "https://example.org/c") ].

(** Vatican News cannot be reached; every other source gives
    [plain_entries]. *)
Definition vatican_down : Fetcher :=
  fun url =>
    if String.eqb url "https://www.vaticannews.va/en.rss.xml"
    then Raises "timed out"
    else Feed plain_entries.

(** [n] numbered entries without link. *)
Definition numbered_entries (n : nat) : list Entry :=
  map (fun k => mkEntry (Some ("Item " ++ decimal k)%string) None) (seq 1 n).

(** Only Catholic Stand answers, with twenty entries. *)
Definition only_catholic_stand : Fetcher :=
  fun url =>
    if String.eqb url "https://catholicstand.com/feed/"
    then Feed (numbered_entries 20)
    else Feed [].

(** Only Crux answers, with five entries. *)
Definition only_crux : Fetcher :=
  fun url =>
    if String.eqb url "https://cruxnow.com/feed/"
    then Feed (numbered_entries 5)
    else Raises "not found".

(** ** [main] *)

(** What reading the clock in the zone of New York gives [generate_html]:
    the reading, or an exception (the zone data may be missing). *)
Inductive Clock : Type :=
| Reads (now_est : DateTime)
| ClockRaises (message : string).

(** What [with open('index.html', 'w', encoding='utf-8') as f:
    f.write(html_content)] does: the file holds the content, or an exception
    is raised and the file is left as [left_behind] (absent, as it was, or cut
    short). *)
Inductive StoreOutcome : Type :=
| Stored
| StoreRaises (message : string) (left_behind : option string).

(** The surroundings of one execution of [main]. *)
Record Env : Type := mkEnv {
  env_fetch : Fetcher;
  env_clock : Clock;
  env_store : string -> StoreOutcome
}.

(** What [main] leaves: the lines printed and the file [index.html]. *)
Record Machine : Type := mkMachine {
  m_stdout : list string;
  index_html : option string
}.

Definition success_line : string :=
  "
✓ Successfully updated ReadySetCatholic!".

(** [main()], started with [index.html] as [file_before]: the [try] block
    and its [except Exception]. *)
Definition main (env : Env) (file_before : option string) : Machine :=
  let w := run_fetch_headlines CATHOLIC_NEWS_SOURCES (env_fetch env) 3 in
  match env_clock env with
  | ClockRaises message =>
      {| m_stdout := stdout w ++ [("Error: " ++ message)%string];
         index_html := file_before |}
  | Reads now_est =>
      let html_content := generate_html (headlines w) now_est in
      match env_store env html_content with
      | Stored =>
          {| m_stdout := stdout w ++ [success_line];
             index_html := Some html_content |}
      | StoreRaises message left_behind =>
          {| m_stdout := stdout w ++ [("Error: " ++ message)%string];
             index_html := left_behind |}
      end
  end.

(** ** Further notions *)

(** The lines one turn of the outer loop prints. *)
Definition report (fetch : Fetcher) (item : string * string) : list string :=
  ("  Fetching from " ++ fst item ++ "...")%string
  :: match fetch (snd item) with
     | Raises message =>
         [("  Error fetching from " ++ fst item ++ ": " ++ message)%string]
     | Feed [] => [("    Warning: No entries found for " ++ fst item)%string]
     | Feed (_ :: _) => []
     end.

(** The block the page shows for a headline of category [c]. *)
Definition block (c : Category) (h : Headline) : string :=
  match c with
  | breaking => featured_item h
  | _ => news_item h
  end.

(** The characters [html.escape] replaces, apart from the ampersand. *)
Definition markup_chars : list ascii :=
  ["<"%char; ">"%char; Py.dquote; Py.squote].

(** Every source is down. *)
Definition all_down : Fetcher := fun _ => Raises "unreachable".

(** A machine on which the clock reads a November morning and the file can
    be written. *)
Definition good_env (fetch : Fetcher) : Env :=
  {| env_fetch := fetch;
     env_clock := Reads (mkDateTime 2026 November 4 Wednesday 6 0 0);
     env_store := fun _ => Stored |}.

(** Only Zenit answers, with one entry whose title holds markup. *)
Definition markup_feed : Fetcher :=
  fun url =>
    if String.eqb url "https://zenit.org/feed/"
    then Feed [mkEntry (Some "<b>Tom & Ann's</b>") (Some "https://example.org/t")]
    else Feed [].

(** Every source answers with [plain_entries]. *)
Definition all_up : Fetcher := fun _ => Feed plain_entries.

(** Two characters are the same ASCII letter, in the same case or not, or
    the same character. *)
Definition same_letter (a b : ascii) : bool :=
  let m := nat_of_ascii a in
  let n := nat_of_ascii b in
  Ascii.eqb a b
  || ((65 <=? m)%nat && (m <=? 90)%nat && (n =? m + 32)%nat)
  || ((65 <=? n)%nat && (n <=? 90)%nat && (m =? n + 32)%nat).

(** Two texts differ at most in the case of their ASCII letters. *)
Fixpoint same_up_to_case (s t : string) : bool :=
  match s, t with
  | EmptyString, EmptyString => true
  | String a s', String b t' => same_letter a b && same_up_to_case s' t'
  | _, _ => false
  end.



(** * Properties *)

(** ** The dictionary of categories *)

Section Dictionary.

Lemma Category_eqb_eq (a b : Category) : Category_eqb a b = true <-> a = b.
Proof.
  split.
  - destruct a, b; cbn; intro H; try reflexivity; discriminate H.
  - intros ->. destruct b; reflexivity.
Qed.

Lemma Category_eqb_refl (c : Category) : Category_eqb c c = true.
Proof. now apply Category_eqb_eq. Qed.

Lemma Category_eqb_neq (a b : Category) : a <> b -> Category_eqb a b = false.
Proof.
  intro Hne. destruct (Category_eqb a b) eqn:E; [|reflexivity].
  apply Category_eqb_eq in E. contradiction.
Qed.

Lemma Category_eq_dec (a b : Category) : {a = b} + {a <> b}.
Proof. decide equality. Qed.

Lemma lookup_assign_same (c : Category) (l : list Headline) (hs : CategorySet) :
  lookup c (assign c l hs) = l.
Proof. destruct c; reflexivity. Qed.

Lemma lookup_assign_other (c c' : Category) (l : list Headline) (hs : CategorySet) :
  c <> c' -> lookup c' (assign c l hs) = lookup c' hs.
Proof. intro Hne. destruct c, c'; try reflexivity; contradiction Hne; reflexivity. Qed.

Lemma lookup_append (c c' : Category) (h : Headline) (hs : CategorySet) :
  lookup c' (append c h hs) =
  lookup c' hs ++ (if Category_eqb c c' then [h] else []).
Proof.
  unfold append. destruct (Category_eq_dec c c') as [->|Hne].
  - now rewrite lookup_assign_same, Category_eqb_refl.
  - rewrite lookup_assign_other, Category_eqb_neq by assumption.
    now rewrite app_nil_r.
Qed.

(** Two dictionaries with the same seven lists are the same dictionary. *)
Lemma CategorySet_ext (a b : CategorySet) :
  (forall c, lookup c a = lookup c b) -> a = b.
Proof.
  intro H. destruct a, b.
  pose proof (H breaking); pose proof (H vatican); pose proof (H america);
  pose proof (H faith); pose proof (H culture); pose proof (H world);
  pose proof (H education). cbn in *. congruence.
Qed.

Lemma slice_to_nonneg {A : Type} (k : Z) (l : list A) :
  (0 <= k)%Z -> Py.slice_to k l = firstn (Z.to_nat k) l.
Proof.
  intro Hk. unfold Py.slice_to.
  destruct (k <? 0)%Z eqn:E; [|reflexivity].
  apply Z.ltb_lt in E. lia.
Qed.

Lemma lookup_truncate (c : Category) (hs : CategorySet) :
  lookup c (truncate hs) = firstn (cap c) (lookup c hs).
Proof. destruct hs, c; reflexivity. Qed.

Lemma bucket_app (c : Category) (l1 l2 : list (Category * Headline)) :
  bucket c (l1 ++ l2) = bucket c l1 ++ bucket c l2.
Proof. unfold bucket. now rewrite filter_app, map_app. Qed.

Lemma bucket_cons (c : Category) (p : Category * Headline) (l : list (Category * Headline)) :
  bucket c (p :: l) = (if Category_eqb (fst p) c then [snd p] else []) ++ bucket c l.
Proof. unfold bucket. cbn. now destruct (Category_eqb (fst p) c). Qed.

End Dictionary.

(** ** The loops, category by category *)

Section Loops.

Variable fetch : Fetcher.
Variable max_per_source : Z.

Lemma fold_process_entry (source_name : string) (c : Category) :
  forall (ies : list (nat * Entry)) (hs : CategorySet),
    lookup c (fold_left (process_entry source_name) ies hs) =
    lookup c hs ++ bucket c (classified source_name ies).
Proof.
  induction ies as [|[i entry] ies IH]; intro hs.
  - cbn. now rewrite app_nil_r.
  - cbn [fold_left classified map]. rewrite IH.
    unfold process_entry. rewrite lookup_append, bucket_cons, <- app_assoc.
    reflexivity.
Qed.

Lemma lookup_process_source (c : Category) (w : World) (item : string * string) :
  lookup c (headlines (process_source fetch max_per_source w item)) =
  lookup c (headlines w) ++ bucket c (produced fetch max_per_source item).
Proof.
  destruct item as [source_name feed_url].
  unfold process_source, produced. cbn [fst snd].
  destruct (fetch feed_url) as [message|[|entry entries]].
  - cbn. now rewrite app_nil_r.
  - unfold Py.slice_to.
    destruct (max_per_source <? 0)%Z; rewrite firstn_nil; cbn; now rewrite app_nil_r.
  - cbn [headlines print]. unfold process_entries. apply fold_process_entry.
Qed.

Lemma lookup_collect (c : Category) :
  forall (sources : list (string * string)) (w : World),
    lookup c (headlines (collect sources fetch max_per_source w)) =
    lookup c (headlines w)
    ++ bucket c (flat_map (produced fetch max_per_source) sources).
Proof.
  unfold collect.
  induction sources as [|item sources IH]; intro w.
  - cbn. now rewrite app_nil_r.
  - cbn [fold_left flat_map]. rewrite IH, lookup_process_source, bucket_app.
    now rewrite app_assoc.
Qed.

Lemma gives_nothing_produced (item : string * string) :
  gives_nothing fetch item = true -> produced fetch max_per_source item = [].
Proof.
  unfold gives_nothing, produced.
  destruct (fetch (snd item)) as [message|[|entry entries]]; intro H.
  - reflexivity.
  - unfold Py.slice_to.
    destruct (max_per_source <? 0)%Z; now rewrite firstn_nil.
  - discriminate H.
Qed.

End Loops.

(** ** What the run prints *)

Section Log.

Variable fetch : Fetcher.
Variable max_per_source : Z.

Lemma stdout_process_source (w : World) (item : string * string) (line : string) :
  In line (stdout w) -> In line (stdout (process_source fetch max_per_source w item)).
Proof.
  intro H. destruct item as [source_name feed_url]. unfold process_source.
  destruct (fetch feed_url) as [message|[|entry entries]]; cbn;
    repeat (apply in_or_app; left); exact H.
Qed.

Lemma stdout_collect (line : string) :
  forall (sources : list (string * string)) (w : World),
    In line (stdout w) -> In line (stdout (collect sources fetch max_per_source w)).
Proof.
  unfold collect. induction sources as [|item sources IH]; intros w H.
  - exact H.
  - cbn [fold_left]. apply IH. now apply stdout_process_source.
Qed.

(** The line a source that gives nothing leaves on the output. *)
Lemma stdout_gives_nothing (w : World) (item : string * string) :
  gives_nothing fetch item = true ->
  In (match fetch (snd item) with
      | Raises message =>
          "  Error fetching from " ++ fst item ++ ": " ++ message
      | Feed _ => "    Warning: No entries found for " ++ fst item
      end)%string
     (stdout (process_source fetch max_per_source w item)).
Proof.
  destruct item as [source_name feed_url]. unfold gives_nothing, process_source.
  cbn [fst snd].
  destruct (fetch feed_url) as [message|[|entry entries]]; intro H.
  - cbn. apply in_or_app. right. now left.
  - cbn. apply in_or_app. right. now left.
  - discriminate H.
Qed.

End Log.

(** ** Failure of one source *)

Lemma In_bucket (c : Category) (h : Headline) (l : list (Category * Headline)) :
  In (c, h) l -> In h (bucket c l).
Proof.
  intro H. unfold bucket. apply in_map_iff. exists (c, h). split; [reflexivity|].
  apply filter_In. split; [exact H|]. apply Category_eqb_refl.
Qed.

Lemma headlines_collect_skip (fetch : Fetcher) (max_per_source : Z)
    (before after : list (string * string)) (S : string * string) (w : World) :
  gives_nothing fetch S = true ->
  headlines (collect (before ++ S :: after) fetch max_per_source w) =
  headlines (collect (before ++ after) fetch max_per_source w).
Proof.
  intro H. apply CategorySet_ext. intro c.
  rewrite !lookup_collect, !flat_map_app. cbn [flat_map].
  now rewrite (gives_nothing_produced fetch max_per_source S H).
Qed.

(** What keeps a headline of a later source out of the returned dictionary
    is the closing cut, not a failure before it: with the default limit the
    first headline of Spirit Daily is produced for [faith] and returned under
    no key when Vatican News fails, and just the same when every source
    answers; the [faith] lists of the two runs are equal. *)
Lemma cut_is_the_same_without_failure :
  let S' := ("Spirit Daily", "https://spiritdaily.com/feed/") in
  let h := mkHeadline "Item A" "https://example.org/a" "Spirit Daily" in
  In (faith, h) (produced vatican_down 3 S')
  /\ In (faith, h) (produced all_up 3 S')
  /\ (forall c, ~ In h (lookup c (fetch_headlines vatican_down 3)))
  /\ (forall c, ~ In h (lookup c (fetch_headlines all_up 3)))
  /\ lookup faith (fetch_headlines vatican_down 3)
     = lookup faith (fetch_headlines all_up 3).
Proof.
  cbv zeta. split; [vm_compute; tauto|]. split; [vm_compute; tauto|].
  split; [|split].
  - intros c H. destruct c; vm_compute in H;
      repeat (destruct H as [H|H]; [discriminate H|]); exact H.
  - intros c H. destruct c; vm_compute in H;
      repeat (destruct H as [H|H]; [discriminate H|]); exact H.
  - vm_compute. reflexivity.
Qed.

(** C1: a source whose fetch fails or gives no entries adds nothing to the
    dictionary and leaves its line on the output, and the sources after it
    are processed all the same: the dictionary returned is the one returned
    without that source in the list, so the failure takes no headline of a
    later source away; every headline of a later source is appended to the
    list of its category, of which the returned list is the first [cap]
    items. *)
Theorem failed_source_is_isolated (fetch : Fetcher) (max_per_source : Z)
    (before after : list (string * string)) (S : string * string) :
  gives_nothing fetch S = true ->
  let sources := before ++ S :: after in
  let collected := collect sources fetch max_per_source initial_world in
  let returned := headlines (run_fetch_headlines sources fetch max_per_source) in
  (forall w, headlines (process_source fetch max_per_source w S) = headlines w)
  /\ In (match fetch (snd S) with
         | Raises message => "  Error fetching from " ++ fst S ++ ": " ++ message
         | Feed _ => "    Warning: No entries found for " ++ fst S
         end)%string
        (stdout (run_fetch_headlines sources fetch max_per_source))
  /\ returned = headlines (run_fetch_headlines (before ++ after) fetch max_per_source)
  /\ (forall S' c h,
        In S' after ->
        In (c, h) (produced fetch max_per_source S') ->
        In h (lookup c (headlines collected)))
  /\ (forall c, lookup c returned = firstn (cap c) (lookup c (headlines collected))).
Proof.
  intros Hnothing sources collected returned.
  split; [|split; [|split; [|split]]].
  - intro w. apply CategorySet_ext. intro c.
    rewrite lookup_process_source.
    rewrite (gives_nothing_produced fetch max_per_source S Hnothing).
    apply app_nil_r.
  - cbn [run_fetch_headlines stdout]. subst sources. unfold collect.
    rewrite fold_left_app. cbn [fold_left].
    apply stdout_collect. now apply stdout_gives_nothing.
  - subst returned sources. cbn [run_fetch_headlines headlines].
    f_equal. now apply headlines_collect_skip.
  - intros S' c h Hin Hmade. subst collected sources.
    rewrite lookup_collect. apply in_or_app. right. apply In_bucket.
    apply in_flat_map. exists S'. split; [|exact Hmade].
    apply in_or_app. right. now right.
  - intro c. subst returned. cbn [run_fetch_headlines headlines].
    apply lookup_truncate.
Qed.

Lemma failed_source_is_isolated_witness :
  gives_nothing vatican_down ("Vatican News", "https://www.vaticannews.va/en.rss.xml") = true
  /\ fetch_headlines vatican_down 3 =
     headlines (run_fetch_headlines (tl CATHOLIC_NEWS_SOURCES) vatican_down 3).
Proof.
  split; [reflexivity|].
  apply (failed_source_is_isolated vatican_down 3 [] (tl CATHOLIC_NEWS_SOURCES)
           ("Vatican News", "https://www.vaticannews.va/en.rss.xml")).
  reflexivity.
Defined.

(** ** The decision sequence *)

Lemma mem_In (x : string) (l : list string) : Py.mem x l = true <-> In x l.
Proof.
  unfold Py.mem. rewrite existsb_exists. split.
  - intros [y [Hin Heq]]. apply String.eqb_eq in Heq. now subst y.
  - intro Hin. exists x. split; [exact Hin|apply String.eqb_refl].
Qed.

(** The chain of the script is the rule list of the design document. *)
Lemma classify_spec_classify (i : nat) (s t : string) :
  classify i s t = spec_classify i s t.
Proof.
  unfold classify, spec_classify, spec_rules, first_match, Py.get.
  repeat match goal with
         | |- context [if ?b then _ else _] => destruct b
         end; reflexivity.
Qed.

Lemma length_app_one_neq {A : Type} (l : list A) (x : A) : l <> l ++ [x].
Proof.
  intro H. apply (f_equal (@List.length A)) in H.
  rewrite length_app in H. cbn in H. lia.
Qed.

(** C2: an entry's headline is appended to the list of exactly one category
    and every other list is left as it was; the category is the one of the
    first rule of the design document's rule list that matches, and [faith]
    when no rule matches. *)
Theorem one_category_receives (source_name : string) (hs : CategorySet)
    (i : nat) (entry : Entry) :
  let h := make_headline source_name entry in
  let hs' := process_entry source_name hs (i, entry) in
  (exists! c : Category,
      lookup c hs' = lookup c hs ++ [h]
      /\ forall c', c' <> c -> lookup c' hs' = lookup c' hs)
  /\ total hs' = S (total hs)
  /\ entry_category i source_name entry =
     spec_classify i source_name (title_lower_of entry)
  /\ (first_match spec_rules i source_name (title_lower_of entry) = None ->
      lookup faith hs' = lookup faith hs ++ [h]).
Proof.
  intros h hs'. subst h hs'. unfold process_entry.
  set (c := entry_category i source_name entry).
  set (h := make_headline source_name entry).
  split; [|split; [|split]].
  - exists c. split.
    + split.
      * now rewrite lookup_append, Category_eqb_refl.
      * intros c' Hne. rewrite lookup_append, Category_eqb_neq by congruence.
        apply app_nil_r.
    + intros c2 [Hc2 _].
      destruct (Category_eq_dec c c2) as [Heq|Hne]; [exact Heq|].
      rewrite lookup_append, Category_eqb_neq, app_nil_r in Hc2 by assumption.
      now apply length_app_one_neq in Hc2.
  - unfold total, categories. cbn [map list_sum].
    rewrite !lookup_append, !length_app.
    destruct c; cbn; lia.
  - apply classify_spec_classify.
  - intro Hnone. subst c. unfold entry_category.
    rewrite classify_spec_classify. unfold spec_classify. rewrite Hnone.
    cbn [Py.get]. now rewrite lookup_append, Category_eqb_refl.
Qed.

Lemma one_category_receives_witness :
  first_match spec_rules 1 "Aleteia" (title_lower_of (mkEntry (Some "Item A") None)) = None
  /\ lookup faith (process_entry "Aleteia" empty_headlines
                     (1, mkEntry (Some "Item A") None))
     = [mkHeadline "Item A" "#" "Aleteia"].
Proof.
  split; [reflexivity|].
  apply (one_category_receives "Aleteia" empty_headlines 1
           (mkEntry (Some "Item A") None)).
  reflexivity.
Defined.

Lemma classify_breaking (i : nat) (s t : string) :
  classify i s t = breaking <-> (i = 0 /\ In s breaking_sources).
Proof.
  assert (E : (i =? 0)%nat && Py.mem s breaking_sources = true
              <-> (i = 0 /\ In s breaking_sources)).
  { now rewrite andb_true_iff, Nat.eqb_eq, mem_In. }
  unfold classify. fold breaking_sources.
  destruct ((i =? 0)%nat && Py.mem s breaking_sources).
  - split; [intros _; now apply E|reflexivity].
  - repeat match goal with
           | |- context [if ?b then _ else _] => destruct b
           end;
      (split; [discriminate|intro H; apply E in H; discriminate H]).
Qed.

Lemma classify_vatican_news_later (i : nat) (t : string) :
  classify (S i) "Vatican News" t = vatican.
Proof.
  unfold classify. cbn [Nat.eqb andb].
  rewrite String.eqb_refl, orb_true_r. reflexivity.
Qed.

(** C3: the chain answers [breaking] exactly for position 0 of a source among
    Vatican News, The Pillar and OSV News; at any later position, and so at
    position 1, an entry of Vatican News goes to [vatican] whatever its
    title. *)
Theorem breaking_iff_lead_of_breaking_source :
  (forall (i : nat) (source_name title_lower : string),
      classify i source_name title_lower = breaking
      <-> (i = 0 /\ In source_name breaking_sources))
  /\ (forall (i : nat) (title_lower : string),
         classify (S i) "Vatican News" title_lower = vatican)
  /\ (forall entry : Entry, entry_category 1 "Vatican News" entry = vatican).
Proof.
  split; [|split].
  - exact classify_breaking.
  - exact classify_vatican_news_later.
  - intro entry. apply classify_vatican_news_later.
Qed.

(** C4: an entry whose lowercased title contains [pope], unless it is the
    lead entry of a breaking source, goes to [vatican], and so not to
    [faith], whatever its source. *)
Theorem pope_title_goes_to_vatican (i : nat) (source_name title_text : string)
    (entry : Entry) :
  entry_title entry = Some title_text ->
  Py.contains "pope" (Py.lower title_text) = true ->
  ~ (i = 0 /\ In source_name breaking_sources) ->
  entry_category i source_name entry = vatican
  /\ entry_category i source_name entry <> faith
  /\ forall hs,
       lookup vatican (process_entry source_name hs (i, entry)) =
         lookup vatican hs ++ [make_headline source_name entry]
       /\ lookup faith (process_entry source_name hs (i, entry)) = lookup faith hs.
Proof.
  intros Htitle Hpope Hnot.
  assert (Hcat : entry_category i source_name entry = vatican).
  { unfold entry_category, title_lower_of. rewrite Htitle. cbn [Py.get].
    unfold classify. fold breaking_sources.
    destruct ((i =? 0)%nat && Py.mem source_name breaking_sources) eqn:E.
    - exfalso. apply Hnot.
      now rewrite andb_true_iff, Nat.eqb_eq, mem_In in E.
    - now rewrite Hpope. }
  split; [exact Hcat|]. split; [rewrite Hcat; discriminate|].
  intro hs. unfold process_entry. rewrite Hcat, !lookup_append. cbn.
  split; [reflexivity|apply app_nil_r].
Qed.

Lemma pope_title_goes_to_vatican_witness :
  entry_title (mkEntry (Some "Pope Leo speaks") None) = Some "Pope Leo speaks"
  /\ Py.contains "pope" (Py.lower "Pope Leo speaks") = true
  /\ ~ (0 = 0 /\ In "Catholic Stand" breaking_sources)
  /\ entry_category 0 "Catholic Stand" (mkEntry (Some "Pope Leo speaks") None) = vatican.
Proof.
  assert (Hnot : ~ (0 = 0 /\ In "Catholic Stand" breaking_sources)).
  { intros [_ H]. cbn in H. repeat (destruct H as [H|H]; [discriminate H|]). exact H. }
  split; [reflexivity|]. split; [reflexivity|]. split; [exact Hnot|].
  apply (pope_title_goes_to_vatican 0 "Catholic Stand" "Pope Leo speaks"
           (mkEntry (Some "Pope Leo speaks") None));
    [reflexivity|reflexivity|exact Hnot].
Defined.

(** ** The limits *)

Lemma total_buckets (l : list (Category * Headline)) :
  list_sum (map (fun c => List.length (bucket c l)) categories) = List.length l.
Proof.
  induction l as [|[c0 h] l IH]; [reflexivity|].
  unfold categories in *. cbn [map list_sum] in *.
  rewrite !bucket_cons, !length_app. cbn [fst snd].
  destruct c0; cbn in *; lia.
Qed.

Lemma total_extended (hs hs' : CategorySet) (l : list (Category * Headline)) :
  (forall c, lookup c hs' = lookup c hs ++ bucket c l) ->
  total hs' = total hs + List.length l.
Proof.
  intro H. rewrite <- (total_buckets l). unfold total, categories.
  cbn [map list_sum fold_right]. rewrite !H, !length_app. lia.
Qed.

(** C5: every returned list is the collected list cut to its cap, 5 for
    [breaking] and 15 for the others: its first items are kept and the tail
    is dropped; twenty collected [faith] headlines give the first fifteen. *)
Theorem lists_cut_to_their_caps (fetch : Fetcher) (max_per_source : Z) :
  let collected :=
    headlines (collect CATHOLIC_NEWS_SOURCES fetch max_per_source initial_world) in
  let returned := fetch_headlines fetch max_per_source in
  (forall c,
      lookup c returned = firstn (cap c) (lookup c collected)
      /\ lookup c collected = lookup c returned ++ skipn (cap c) (lookup c collected)
      /\ List.length (lookup c returned)
         = Nat.min (cap c) (List.length (lookup c collected)))
  /\ cap breaking = 5
  /\ (forall c, c <> breaking -> cap c = 15)
  /\ (List.length (lookup faith collected) = 20 ->
      List.length (lookup faith returned) = 15
      /\ lookup faith returned = firstn 15 (lookup faith collected)).
Proof.
  intros collected returned.
  assert (Hcut : forall c, lookup c returned = firstn (cap c) (lookup c collected)).
  { intro c. apply lookup_truncate. }
  split; [|split; [|split]].
  - intro c. rewrite Hcut. split; [reflexivity|]. split.
    + symmetry. apply firstn_skipn.
    + apply length_firstn.
  - reflexivity.
  - intros c Hne. destruct c; try reflexivity. contradiction Hne. reflexivity.
  - intro Htwenty. rewrite Hcut. cbn [cap]. split; [|reflexivity].
    rewrite length_firstn, Htwenty. reflexivity.
Qed.

Lemma lists_cut_to_their_caps_witness :
  List.length (lookup faith
     (headlines (collect CATHOLIC_NEWS_SOURCES only_catholic_stand 20 initial_world))) = 20
  /\ List.length (lookup faith (fetch_headlines only_catholic_stand 20)) = 15.
Proof.
  split; [vm_compute; reflexivity|].
  apply (lists_cut_to_their_caps only_catholic_stand 20).
  vm_compute. reflexivity.
Defined.

(** ** The entries taken from one source *)

Lemma length_enumerate_from {A : Type} (l : list A) :
  forall k, List.length (Py.enumerate_from k l) = List.length l.
Proof. induction l as [|x l IH]; intro k; cbn; [reflexivity|now rewrite IH]. Qed.

Lemma map_snd_enumerate_from {A : Type} (l : list A) :
  forall k, map snd (Py.enumerate_from k l) = l.
Proof. induction l as [|x l IH]; intro k; cbn; [reflexivity|now rewrite IH]. Qed.

Lemma map_snd_classified (source_name : string) (ies : list (nat * Entry)) :
  map snd (classified source_name ies) = map (make_headline source_name) (map snd ies).
Proof. unfold classified. rewrite !map_map. reflexivity. Qed.

(** C6: with a limit that is not negative, a source whose feed has [n]
    entries produces [min n limit] headlines, those of the first entries of
    the feed in the order of the feed; each goes to the end of the list of
    its category. *)
Theorem source_yields_front_entries (fetch : Fetcher) (max_per_source : Z)
    (w : World) (source_name feed_url : string) (entries : list Entry) :
  (0 <= max_per_source)%Z ->
  fetch feed_url = Feed entries ->
  let made := produced fetch max_per_source (source_name, feed_url) in
  let w' := process_source fetch max_per_source w (source_name, feed_url) in
  map snd made
    = map (make_headline source_name) (firstn (Z.to_nat max_per_source) entries)
  /\ List.length made = Nat.min (List.length entries) (Z.to_nat max_per_source)
  /\ total (headlines w')
     = total (headlines w) + Nat.min (List.length entries) (Z.to_nat max_per_source)
  /\ forall c, lookup c (headlines w') = lookup c (headlines w) ++ bucket c made.
Proof.
  intros Hmax Hfetch made w'.
  assert (Hmade : made = classified source_name
                    (Py.enumerate (firstn (Z.to_nat max_per_source) entries))).
  { subst made. unfold produced. cbn [fst snd]. rewrite Hfetch.
    now rewrite slice_to_nonneg. }
  assert (Hlen : List.length made
                 = Nat.min (List.length entries) (Z.to_nat max_per_source)).
  { rewrite Hmade. unfold classified, Py.enumerate.
    rewrite length_map, length_enumerate_from, length_firstn. apply Nat.min_comm. }
  assert (Hlookup : forall c,
             lookup c (headlines w') = lookup c (headlines w) ++ bucket c made).
  { intro c. apply lookup_process_source. }
  split; [|split; [|split]].
  - rewrite Hmade, map_snd_classified. unfold Py.enumerate.
    now rewrite map_snd_enumerate_from.
  - exact Hlen.
  - rewrite <- Hlen. now apply total_extended.
  - exact Hlookup.
Qed.

Lemma source_yields_front_entries_witness :
  (0 <= 2)%Z
  /\ only_crux "https://cruxnow.com/feed/" = Feed (numbered_entries 5)
  /\ map snd (produced only_crux 2 ("Crux", "https://cruxnow.com/feed/"))
     = [mkHeadline "Item 1" "#" "Crux"; mkHeadline "Item 2" "#" "Crux"].
Proof.
  split; [lia|]. split; [reflexivity|].
  apply (source_yields_front_entries only_crux 2 initial_world
           "Crux" "https://cruxnow.com/feed/" (numbered_entries 5));
    [lia|reflexivity].
Defined.

(** ** Entries with missing fields *)

Lemma classify_no_title (i : nat) (s : string) :
  classify i s (Py.lower "") = classify i s (Py.lower "No title").
Proof. reflexivity. Qed.

(** C7: an entry without title gives a headline titled [No title], an entry
    without link a headline linked to [#]; an entry without title gets the
    category the chain gives the title [No title]. *)
Theorem missing_fields_get_defaults (i : nat) (source_name : string) (entry : Entry) :
  (entry_title entry = None ->
     title (make_headline source_name entry) = "No title"
     /\ entry_category i source_name entry
        = classify i source_name (Py.lower "No title")
     /\ forall hs,
          process_entry source_name hs (i, entry)
          = append (classify i source_name (Py.lower "No title"))
                   (make_headline source_name entry) hs)
  /\ (entry_link entry = None -> link (make_headline source_name entry) = "#").
Proof.
  split.
  - intro Htitle.
    assert (Hcat : entry_category i source_name entry
                   = classify i source_name (Py.lower "No title")).
    { unfold entry_category, title_lower_of. rewrite Htitle. cbn [Py.get].
      apply classify_no_title. }
    split; [|split].
    + unfold make_headline. cbn [title]. now rewrite Htitle.
    + exact Hcat.
    + intro hs. unfold process_entry. now rewrite Hcat.
  - intro Hlink. unfold make_headline. cbn [link]. now rewrite Hlink.
Qed.

Lemma missing_fields_get_defaults_witness :
  entry_title (mkEntry None None) = None
  /\ entry_link (mkEntry None None) = None
  /\ make_headline "Aleteia" (mkEntry None None) = mkHeadline "No title" "#" "Aleteia"
  /\ entry_category 1 "Aleteia" (mkEntry None None) = faith.
Proof.
  pose proof (missing_fields_get_defaults 1 "Aleteia" (mkEntry None None)) as [Ht Hl].
  destruct (Ht eq_refl) as (_ & Hcat & _).
  split; [reflexivity|]. split; [reflexivity|]. split; [reflexivity|].
  rewrite Hcat. reflexivity.
Defined.

(** ** A limit of zero *)

Lemma produced_zero (fetch : Fetcher) (item : string * string) :
  produced fetch 0 item = [].
Proof. unfold produced. destruct (fetch (snd item)); reflexivity. Qed.

Lemma flat_map_nothing {A B : Type} (f : A -> list B) (l : list A) :
  (forall x, f x = []) -> flat_map f l = [].
Proof.
  intro H. induction l as [|x l IH]; [reflexivity|].
  cbn. now rewrite H, IH.
Qed.

(** C9: with [max_per_source = 0] the run returns the dictionary whose seven
    lists are empty, whatever the feeds give or raise. *)
Theorem zero_limit_gives_empty_dictionary :
  forall (fetch : Fetcher),
    fetch_headlines fetch 0 = empty_headlines
    /\ forall c, lookup c (fetch_headlines fetch 0) = [].
Proof.
  intro fetch.
  assert (H : forall c, lookup c (fetch_headlines fetch 0) = []).
  { intro c. unfold fetch_headlines. cbn [run_fetch_headlines headlines].
    rewrite lookup_truncate, lookup_collect.
    rewrite (flat_map_nothing _ _ (produced_zero fetch)).
    destruct c; reflexivity. }
  split; [|exact H].
  apply CategorySet_ext. intro c. rewrite H. destruct c; reflexivity.
Qed.

(** ** The top stories *)

Section Breaking.

Variable fetch : Fetcher.
Variable max_per_source : Z.

Lemma bucket_breaking_later (s : string) (l : list Entry) :
  forall k, bucket breaking (classified s (Py.enumerate_from (S k) l)) = [].
Proof.
  induction l as [|entry l IH]; intro k; [reflexivity|].
  change (classified s (Py.enumerate_from (S k) (entry :: l)))
    with ((entry_category (S k) s entry, make_headline s entry)
          :: classified s (Py.enumerate_from (S (S k)) l)).
  rewrite bucket_cons, IH. cbn [fst snd].
  rewrite Category_eqb_neq; [reflexivity|].
  unfold entry_category. intro H. apply classify_breaking in H.
  destruct H as [H _]. discriminate H.
Qed.

Lemma bucket_breaking_enumerate (s : string) (l : list Entry) :
  List.length (bucket breaking (classified s (Py.enumerate l)))
  <= if Py.mem s breaking_sources then 1 else 0.
Proof.
  destruct l as [|entry l]; [destruct (Py.mem s breaking_sources); cbn; lia|].
  change (classified s (Py.enumerate (entry :: l)))
    with ((entry_category 0 s entry, make_headline s entry)
          :: classified s (Py.enumerate_from 1 l)).
  rewrite bucket_cons, bucket_breaking_later, app_nil_r. cbn [fst snd].
  destruct (Py.mem s breaking_sources) eqn:E.
  - destruct (Category_eqb _ breaking); cbn; lia.
  - rewrite Category_eqb_neq; [cbn; lia|].
    unfold entry_category. intro H. apply classify_breaking in H.
    destruct H as [_ H]. apply mem_In in H. congruence.
Qed.

Lemma bucket_breaking_produced (item : string * string) :
  List.length (bucket breaking (produced fetch max_per_source item))
  <= if Py.mem (fst item) breaking_sources then 1 else 0.
Proof.
  unfold produced. destruct (fetch (snd item)) as [message|entries].
  - destruct (Py.mem (fst item) breaking_sources); cbn; lia.
  - apply bucket_breaking_enumerate.
Qed.

Lemma bucket_breaking_sources (sources : list (string * string)) :
  List.length (bucket breaking (flat_map (produced fetch max_per_source) sources))
  <= List.length (filter (fun item => Py.mem (fst item) breaking_sources) sources).
Proof.
  induction sources as [|item sources IH]; [cbn; lia|].
  cbn [flat_map filter]. rewrite bucket_app, length_app.
  pose proof (bucket_breaking_produced item) as H.
  destruct (Py.mem (fst item) breaking_sources); cbn [List.length]; lia.
Qed.

End Breaking.

(** C10: a source adds at most one headline to [breaking], and none unless it
    is one of the three breaking sources; the list of the script names three
    of them, so at most three headlines are collected under [breaking] and
    the cap of five drops none. *)
Theorem breaking_never_cut :
  forall (fetch : Fetcher) (max_per_source : Z),
    let collected :=
      headlines (collect CATHOLIC_NEWS_SOURCES fetch max_per_source initial_world) in
    (forall item,
        List.length (bucket breaking (produced fetch max_per_source item))
        <= if Py.mem (fst item) breaking_sources then 1 else 0)
    /\ List.length (filter (fun item => Py.mem (fst item) breaking_sources)
                           CATHOLIC_NEWS_SOURCES) = 3
    /\ List.length (lookup breaking collected) <= 3
    /\ lookup breaking (fetch_headlines fetch max_per_source)
       = lookup breaking collected.
Proof.
  intros fetch max_per_source collected.
  assert (Hthree : List.length (lookup breaking collected) <= 3).
  { subst collected. rewrite lookup_collect. cbn [initial_world print headlines lookup
      empty_headlines cs_breaking app].
    apply (bucket_breaking_sources fetch max_per_source CATHOLIC_NEWS_SOURCES). }
  split; [|split; [|split]].
  - apply bucket_breaking_produced.
  - reflexivity.
  - exact Hthree.
  - unfold fetch_headlines. cbn [run_fetch_headlines headlines].
    rewrite lookup_truncate. apply firstn_all2. cbn [cap].
    fold collected. lia.
Qed.

(** ** The page *)

(** C8: the page is a function of the dictionary and of the clock reading,
    and the clock reading enters it only as the date string, placed after a
    fixed opening: two readings with the same date string give the same
    page, byte for byte. *)
Theorem page_varies_with_date_string_only (hs : CategorySet) :
  (exists rest : string,
      forall now_est : DateTime,
        generate_html hs now_est
        = (template_0 ++ date_string_of now_est ++ rest)%string)
  /\ (forall t1 t2 : DateTime,
         date_string_of t1 = date_string_of t2 ->
         generate_html hs t1 = generate_html hs t2).
Proof.
  split.
  - unfold generate_html, generate_html_dated. eexists. intro now_est. reflexivity.
  - intros t1 t2 Hdate. unfold generate_html. now rewrite Hdate.
Qed.

Lemma page_varies_with_date_string_only_witness :
  let morning := mkDateTime 2026 November 4 Wednesday 6 0 0 in
  let evening := mkDateTime 2026 November 4 Wednesday 18 30 0 in
  date_string_of morning = date_string_of evening
  /\ generate_html (fetch_headlines vatican_down 3) morning
     = generate_html (fetch_headlines vatican_down 3) evening.
Proof.
  cbv zeta. split; [reflexivity|].
  apply (page_varies_with_date_string_only (fetch_headlines vatican_down 3)).
  reflexivity.
Defined.

(** * Further properties of the script *)

(** ** Where returned headlines come from *)

Lemma In_bucket_inv (c : Category) (h : Headline) (l : list (Category * Headline)) :
  In h (bucket c l) -> In (c, h) l.
Proof.
  unfold bucket. intro H. apply in_map_iff in H. destruct H as [[c0 h0] [Hh Hin]].
  apply filter_In in Hin. destruct Hin as [Hin Hc]. cbn in Hh, Hc.
  apply Category_eqb_eq in Hc. now subst.
Qed.

Lemma In_firstn_In {A : Type} (x : A) :
  forall (n : nat) (l : list A), In x (firstn n l) -> In x l.
Proof.
  induction n as [|n IH]; intros [|y l] H; cbn in H; try contradiction.
  destruct H as [H|H]; [now left|right; now apply IH].
Qed.

Lemma nth_error_firstn_Some {A : Type} (x : A) :
  forall (n : nat) (l : list A) (i : nat),
    nth_error (firstn n l) i = Some x -> nth_error l i = Some x.
Proof.
  induction n as [|n IH]; intros [|y l] [|i] H; cbn in *; try discriminate H.
  - exact H.
  - now apply IH.
Qed.

Lemma nth_error_slice_to {A : Type} (k : Z) (l : list A) (i : nat) (x : A) :
  nth_error (Py.slice_to k l) i = Some x -> nth_error l i = Some x.
Proof. unfold Py.slice_to. destruct (k <? 0)%Z; apply nth_error_firstn_Some. Qed.

Lemma In_enumerate_from {A : Type} (l : list A) :
  forall (k i : nat) (x : A),
    In (i, x) (Py.enumerate_from k l) -> k <= i /\ nth_error l (i - k) = Some x.
Proof.
  induction l as [|y l IH]; intros k i x H; cbn in H; [contradiction|].
  destruct H as [H|H].
  - injection H as <- <-. split; [lia|]. now rewrite Nat.sub_diag.
  - apply IH in H. destruct H as [Hle Hnth]. split; [lia|].
    replace (i - k) with (S (i - S k)) by lia. exact Hnth.
Qed.

(** A classified headline of a source is made from an entry of its feed,
    and classified at the position of that entry. *)
Lemma produced_origin (fetch : Fetcher) (max_per_source : Z)
    (item : string * string) (c : Category) (h : Headline) :
  In (c, h) (produced fetch max_per_source item) ->
  exists entries i entry,
    fetch (snd item) = Feed entries
    /\ nth_error entries i = Some entry
    /\ c = entry_category i (fst item) entry
    /\ h = make_headline (fst item) entry.
Proof.
  unfold produced. destruct (fetch (snd item)) as [message|entries]; [contradiction|].
  intro H. unfold classified in H. apply in_map_iff in H.
  destruct H as [[i entry] [Heq Hin]]. cbn [fst snd] in Heq.
  injection Heq as <- <-.
  apply In_enumerate_from in Hin. destruct Hin as [_ Hnth].
  rewrite Nat.sub_0_r in Hnth. apply nth_error_slice_to in Hnth.
  now exists entries, i, entry.
Qed.

Lemma lookup_fetch_headlines (fetch : Fetcher) (max_per_source : Z) (c : Category) :
  lookup c (fetch_headlines fetch max_per_source)
  = firstn (cap c)
      (bucket c (flat_map (produced fetch max_per_source) CATHOLIC_NEWS_SOURCES)).
Proof.
  unfold fetch_headlines. cbn [run_fetch_headlines headlines].
  rewrite lookup_truncate, lookup_collect. f_equal. destruct c; reflexivity.
Qed.

Lemma returned_origin (fetch : Fetcher) (max_per_source : Z) (c : Category)
    (h : Headline) :
  In h (lookup c (fetch_headlines fetch max_per_source)) ->
  exists name url entries i entry,
    In (name, url) CATHOLIC_NEWS_SOURCES
    /\ fetch url = Feed entries
    /\ nth_error entries i = Some entry
    /\ c = entry_category i name entry
    /\ h = make_headline name entry.
Proof.
  rewrite lookup_fetch_headlines. intro H.
  apply In_firstn_In, In_bucket_inv, in_flat_map in H.
  destruct H as [[name url] [Hsrc Hmade]].
  apply produced_origin in Hmade.
  destruct Hmade as (entries & i & entry & Hfetch & Hnth & Hc & Hh).
  now exists name, url, entries, i, entry.
Qed.

(** X1: the list returned for a category is made of the headlines classified
    into it, in the order of the sources and, within a source, of its feed,
    cut to the cap of the category. *)
Theorem fetch_headlines_in_source_order :
  forall (fetch : Fetcher) (max_per_source : Z) (c : Category),
    lookup c (fetch_headlines fetch max_per_source)
    = firstn (cap c)
        (map snd
           (filter (fun p => Category_eqb (fst p) c)
              (flat_map
                 (fun item =>
                    match fetch (snd item) with
                    | Raises _ => []
                    | Feed entries =>
                        map (fun ie => (classify (fst ie) (fst item)
                                          (title_lower_of (snd ie)),
                                        make_headline (fst item) (snd ie)))
                            (Py.enumerate (Py.slice_to max_per_source entries))
                    end)
                 CATHOLIC_NEWS_SOURCES))).
Proof. intros fetch max_per_source c. apply lookup_fetch_headlines. Qed.

(** X2: every returned headline was made from an entry that some configured
    source's feed really holds, carries the name of that source, and sits in
    the category the chain gives that entry at its position in the feed. *)
Theorem returned_headlines_come_from_feeds (fetch : Fetcher) (max_per_source : Z)
    (c : Category) (h : Headline) :
  In h (lookup c (fetch_headlines fetch max_per_source)) ->
  exists name url entries i entry,
    In (name, url) CATHOLIC_NEWS_SOURCES
    /\ fetch url = Feed entries
    /\ nth_error entries i = Some entry
    /\ c = entry_category i name entry
    /\ source h = name
    /\ title h = Py.escape (Py.get (entry_title entry) "No title")
    /\ link h = Py.get (entry_link entry) "#".
Proof.
  intro H. apply returned_origin in H.
  destruct H as (name & url & entries & i & entry & Hsrc & Hfetch & Hnth & Hc & Hh).
  exists name, url, entries, i, entry. subst h. cbn. tauto.
Qed.

Lemma returned_headlines_come_from_feeds_witness :
  In (mkHeadline "Item 1" "#" "Crux") (lookup world (fetch_headlines only_crux 2))
  /\ exists name url entries i entry,
       In (name, url) CATHOLIC_NEWS_SOURCES
       /\ only_crux url = Feed entries
       /\ nth_error entries i = Some entry
       /\ world = entry_category i name entry
       /\ source (mkHeadline "Item 1" "#" "Crux") = name
       /\ title (mkHeadline "Item 1" "#" "Crux")
          = Py.escape (Py.get (entry_title entry) "No title")
       /\ link (mkHeadline "Item 1" "#" "Crux") = Py.get (entry_link entry) "#".
Proof.
  assert (H : In (mkHeadline "Item 1" "#" "Crux")
                 (lookup world (fetch_headlines only_crux 2))).
  { vm_compute. now left. }
  split; [exact H|].
  exact (returned_headlines_come_from_feeds only_crux 2 world _ H).
Defined.

(** X3: every headline returned under [breaking] is made from the first
    entry of the feed of Vatican News, The Pillar or OSV News. *)
Theorem top_stories_are_lead_entries (fetch : Fetcher) (max_per_source : Z)
    (h : Headline) :
  In h (lookup breaking (fetch_headlines fetch max_per_source)) ->
  exists name url entry rest,
    In (name, url) CATHOLIC_NEWS_SOURCES
    /\ In name breaking_sources
    /\ fetch url = Feed (entry :: rest)
    /\ h = make_headline name entry.
Proof.
  intro H. apply returned_origin in H.
  destruct H as (name & url & entries & i & entry & Hsrc & Hfetch & Hnth & Hc & Hh).
  symmetry in Hc. unfold entry_category in Hc. apply classify_breaking in Hc.
  destruct Hc as [-> Hname].
  destruct entries as [|first rest]; [discriminate Hnth|].
  cbn in Hnth. injection Hnth as ->.
  now exists name, url, entry, rest.
Qed.

Lemma top_stories_are_lead_entries_witness :
  In (mkHeadline "Item A" "https://example.org/a" "OSV News")
     (lookup breaking (fetch_headlines vatican_down 3))
  /\ exists name url entry rest,
       In (name, url) CATHOLIC_NEWS_SOURCES
       /\ In name breaking_sources
       /\ vatican_down url = Feed (entry :: rest)
       /\ mkHeadline "Item A" "https://example.org/a" "OSV News"
          = make_headline name entry.
Proof.
  assert (H : In (mkHeadline "Item A" "https://example.org/a" "OSV News")
                 (lookup breaking (fetch_headlines vatican_down 3))).
  { vm_compute. now left. }
  split; [exact H|].
  exact (top_stories_are_lead_entries vatican_down 3 _ H).
Defined.

(** ** Escaped titles *)

Lemma list_ascii_of_string_app (a b : string) :
  list_ascii_of_string (a ++ b)%string
  = list_ascii_of_string a ++ list_ascii_of_string b.
Proof. induction a as [|ch a IH]; cbn; [reflexivity|now rewrite IH]. Qed.

Lemma escape_char_no_markup (c ch : ascii) :
  In ch markup_chars -> ~ In ch (list_ascii_of_string (Py.escape_char c)).
Proof.
  intros Hm Hin. unfold Py.escape_char in Hin.
  destruct (Ascii.eqb c "&"%char) eqn:E1;
    [|destruct (Ascii.eqb c "<"%char) eqn:E2;
      [|destruct (Ascii.eqb c ">"%char) eqn:E3;
        [|destruct (Ascii.eqb c Py.dquote) eqn:E4;
          [|destruct (Ascii.eqb c Py.squote) eqn:E5]]]].
  1-5: cbn in Hm, Hin; decompose [or] Hm; try contradiction; subst ch;
       decompose [or] Hin; try contradiction; discriminate.
  cbn in Hin. destruct Hin as [->|[]].
  apply Ascii.eqb_neq in E2, E3, E4, E5.
  cbv in Hm, E4, E5. decompose [or] Hm; try contradiction; congruence.
Qed.

Lemma escape_no_markup (s : string) (ch : ascii) :
  In ch markup_chars -> ~ In ch (list_ascii_of_string (Py.escape s)).
Proof.
  intro Hm. induction s as [|c s IH]; cbn [Py.escape]; [intros []|].
  rewrite list_ascii_of_string_app. intro Hin. apply in_app_or in Hin.
  destruct Hin as [Hin|Hin]; [now apply (escape_char_no_markup c ch)|now apply IH].
Qed.

(** X4: no returned title holds a raw [<], [>], double quote or
    apostrophe, whatever the feeds put in their titles. *)
Theorem returned_titles_hold_no_markup (fetch : Fetcher) (max_per_source : Z)
    (c : Category) (h : Headline) (ch : ascii) :
  In h (lookup c (fetch_headlines fetch max_per_source)) ->
  In ch markup_chars ->
  ~ In ch (list_ascii_of_string (title h)).
Proof.
  intros H Hm. apply returned_origin in H.
  destruct H as (name & url & entries & i & entry & _ & _ & _ & _ & ->).
  cbn [make_headline title]. now apply escape_no_markup.
Qed.

Lemma returned_titles_hold_no_markup_witness :
  let h := mkHeadline "&lt;b&gt;Tom &amp; Ann&#x27;s&lt;/b&gt;"
                      "https://example.org/t" "Zenit" in
  In h (lookup world (fetch_headlines markup_feed 3))
  /\ In "<"%char markup_chars
  /\ ~ In "<"%char (list_ascii_of_string (title h)).
Proof.
  cbv zeta.
  assert (H : In (mkHeadline "&lt;b&gt;Tom &amp; Ann&#x27;s&lt;/b&gt;"
                             "https://example.org/t" "Zenit")
                 (lookup world (fetch_headlines markup_feed 3))).
  { vm_compute. now left. }
  assert (Hm : In "<"%char markup_chars) by now left.
  split; [exact H|]. split; [exact Hm|].
  exact (returned_titles_hold_no_markup markup_feed 3 world _ "<"%char H Hm).
Defined.

(** ** Routing by source name and by keyword *)

Ltac name_keyword_tests t :=
  repeat match goal with
         | |- context [Py.contains ?k t] => generalize (Py.contains k t); intro
         end.

Ltac split_tests :=
  repeat match goal with
         | |- context [if ?b then _ else _] => destruct b
         end.

(** X5: the source rules bound the category whatever the title: Vatican
    News reaches only [breaking] and [vatican]; the sources of the america
    rule never get past [america]; those of the faith rule never past
    [faith], nor those of the culture rule past [culture]. *)
Theorem source_rule_bounds_category (i : nat) (t : string) :
  In (classify i "Vatican News" t) [breaking; vatican]
  /\ (forall s, In s ["National Catholic Register"; "OSV News"; "The Pillar"] ->
        In (classify i s t) [breaking; vatican; america])
  /\ (forall s, In s ["Catholic Daily Reflections"; "Catholic Stand"; "Spirit Daily"] ->
        In (classify i s t) [vatican; america; faith])
  /\ (forall s, In s ["LifeSiteNews"; "TFP.org"; "ChurchPOP"] ->
        In (classify i s t) [vatican; america; faith; culture]).
Proof.
  repeat split.
  - unfold classify. name_keyword_tests t.
    destruct i; cbn; repeat (rewrite orb_true_r; cbn); split_tests; cbn; tauto.
  - intros s Hs. cbn in Hs. decompose [or] Hs; try contradiction; subst s;
      unfold classify; name_keyword_tests t;
      destruct i; cbn; repeat (rewrite orb_true_r; cbn); split_tests; cbn; tauto.
  - intros s Hs. cbn in Hs. decompose [or] Hs; try contradiction; subst s;
      unfold classify; name_keyword_tests t;
      destruct i; cbn; repeat (rewrite orb_true_r; cbn); split_tests; cbn; tauto.
  - intros s Hs. cbn in Hs. decompose [or] Hs; try contradiction; subst s;
      unfold classify; name_keyword_tests t;
      destruct i; cbn; repeat (rewrite orb_true_r; cbn); split_tests; cbn; tauto.
Qed.

Lemma source_rule_bounds_category_witness :
  In "Catholic Stand" ["Catholic Daily Reflections"; "Catholic Stand"; "Spirit Daily"]
  /\ In (classify 0 "Catholic Stand" "a life of faith") [vatican; america; faith].
Proof.
  assert (H : In "Catholic Stand"
                 ["Catholic Daily Reflections"; "Catholic Stand"; "Spirit Daily"]).
  { right; now left. }
  split; [exact H|].
  exact (proj1 (proj2 (proj2 (source_rule_bounds_category 0 "a life of faith")))
           "Catholic Stand" H).
Defined.

(** X6: the keyword tests look for substrings, not words: a title with
    the letters [us] anywhere in it (as in Jesus), without [pope] or
    [vatican], not from Vatican News and not a lead entry of a breaking
    source, goes to [america], even from a source of the faith rule. *)
Theorem us_inside_a_word_goes_to_america (i : nat) (source_name title_text : string)
    (entry : Entry) :
  entry_title entry = Some title_text ->
  Py.contains "us" (Py.lower title_text) = true ->
  Py.contains "pope" (Py.lower title_text) = false ->
  Py.contains "vatican" (Py.lower title_text) = false ->
  source_name <> "Vatican News" ->
  ~ (i = 0 /\ In source_name breaking_sources) ->
  entry_category i source_name entry = america.
Proof.
  intros Htitle Hus Hpope Hvatican Hname Hnot.
  unfold entry_category, title_lower_of. rewrite Htitle. cbn [Py.get].
  unfold classify. fold breaking_sources.
  destruct ((i =? 0)%nat && Py.mem source_name breaking_sources) eqn:E.
  - exfalso. apply Hnot. now rewrite andb_true_iff, Nat.eqb_eq, mem_In in E.
  - rewrite Hpope, Hvatican, Hus. apply String.eqb_neq in Hname. rewrite Hname.
    cbn. now rewrite orb_true_r.
Qed.

Lemma us_inside_a_word_goes_to_america_witness :
  entry_category 0 "Catholic Stand" (mkEntry (Some "Jesus heals") None) = america.
Proof.
  apply (us_inside_a_word_goes_to_america 0 "Catholic Stand" "Jesus heals");
    try reflexivity.
  - discriminate.
  - intros [_ H]. cbn in H. decompose [or] H; try contradiction; discriminate.
Defined.

Lemma same_letter_lower_char (a b : ascii) :
  same_letter a b = true -> Py.lower_char a = Py.lower_char b.
Proof.
  unfold same_letter, Py.lower_char. cbv zeta.
  set (m := nat_of_ascii a). set (n := nat_of_ascii b).
  intro H. apply orb_true_iff in H. destruct H as [H|H];
    [apply orb_true_iff in H; destruct H as [H|H]|].
  - apply Ascii.eqb_eq in H. subst b. reflexivity.
  - apply andb_true_iff in H. destruct H as [Hup Hn]. rewrite Hup.
    apply andb_true_iff in Hup. destruct Hup as [Hlo Hhi].
    apply Nat.leb_le in Hlo, Hhi. apply Nat.eqb_eq in Hn.
    assert (Hnot : (n <=? 90)%nat = false) by (apply Nat.leb_gt; lia).
    rewrite Hnot, andb_false_r, <- Hn. subst n.
    apply ascii_nat_embedding.
  - apply andb_true_iff in H. destruct H as [Hup Hm]. rewrite Hup.
    apply andb_true_iff in Hup. destruct Hup as [Hlo Hhi].
    apply Nat.leb_le in Hlo, Hhi. apply Nat.eqb_eq in Hm.
    assert (Hnot : (m <=? 90)%nat = false) by (apply Nat.leb_gt; lia).
    rewrite Hnot, andb_false_r, <- Hm. subst m. symmetry.
    apply ascii_nat_embedding.
Qed.

Lemma same_up_to_case_lower (s : string) :
  forall t : string, same_up_to_case s t = true -> Py.lower s = Py.lower t.
Proof.
  induction s as [|a s IH]; intros [|b t] H; cbn in H; try discriminate H.
  - reflexivity.
  - apply andb_true_iff in H. destruct H as [Hab Hst]. cbn [Py.lower].
    now rewrite (same_letter_lower_char a b Hab), (IH t Hst).
Qed.

(** X7: the category does not depend on the case of the ASCII letters of
    the title: two entries of a source at the same position whose titles
    differ only in the case of such letters get the same category. *)
Theorem category_ignores_letter_case (i : nat) (source_name title_1 title_2 : string)
    (link_1 link_2 : option string) :
  same_up_to_case title_1 title_2 = true ->
  entry_category i source_name (mkEntry (Some title_1) link_1)
  = entry_category i source_name (mkEntry (Some title_2) link_2).
Proof.
  intro H. unfold entry_category, title_lower_of. cbn [entry_title Py.get].
  now rewrite (same_up_to_case_lower title_1 title_2 H).
Qed.

Lemma category_ignores_letter_case_witness :
  same_up_to_case "POPE visits Rome" "pope Visits rome" = true
  /\ entry_category 0 "Catholic Stand" (mkEntry (Some "POPE visits Rome") None) = vatican
  /\ entry_category 0 "Catholic Stand" (mkEntry (Some "pope Visits rome") None) = vatican.
Proof.
  split; [reflexivity|].
  rewrite (category_ignores_letter_case 0 "Catholic Stand" "POPE visits Rome"
             "pope Visits rome" None None eq_refl).
  split; reflexivity.
Defined.

(** ** The blocks of the page *)

Lemma string_app_assoc (a b c : string) : ((a ++ b) ++ c = a ++ (b ++ c))%string.
Proof. induction a as [|ch a IH]; cbn; [reflexivity|now rewrite IH]. Qed.

Lemma string_app_nil_r (a : string) : (a ++ "" = a)%string.
Proof. induction a as [|ch a IH]; cbn; [reflexivity|now rewrite IH]. Qed.

(** The loop [html += f(item)] started from [acc]. *)
Lemma fold_blocks (f : Headline -> string) (items : list Headline) :
  forall acc : string,
    fold_left (fun html item => (html ++ f item)%string) items acc
    = (acc ++ fold_left (fun html item => (html ++ f item)%string) items "")%string.
Proof.
  induction items as [|h items IH]; intro acc; cbn [fold_left].
  - now rewrite string_app_nil_r.
  - rewrite IH. rewrite (IH ("" ++ f h)%string). cbn [String.append].
    now rewrite string_app_assoc.
Qed.

Lemma fold_blocks_app (f : Headline -> string) (l1 l2 : list Headline) :
  fold_left (fun html item => (html ++ f item)%string) (l1 ++ l2) ""
  = (fold_left (fun html item => (html ++ f item)%string) l1 ""
     ++ fold_left (fun html item => (html ++ f item)%string) l2 "")%string.
Proof. rewrite fold_left_app. apply fold_blocks. Qed.

(** X8: the two formatting loops put the blocks of the items one after the
    other in the order of the list: the text of a list is the block of its
    first item followed by the text of the rest, and the text of two lists
    joined is the two texts joined; no item gives the empty text. *)
Theorem formatting_concatenates_blocks :
  format_items [] = ""
  /\ format_featured [] = ""
  /\ (forall h l, format_items (h :: l) = (news_item h ++ format_items l)%string)
  /\ (forall h l, format_featured (h :: l) = (featured_item h ++ format_featured l)%string)
  /\ (forall l1 l2, format_items (l1 ++ l2) = (format_items l1 ++ format_items l2)%string)
  /\ (forall l1 l2,
         format_featured (l1 ++ l2) = (format_featured l1 ++ format_featured l2)%string).
Proof.
  repeat split.
  - intros h l. unfold format_items. cbn [fold_left]. apply fold_blocks.
  - intros h l. unfold format_featured. cbn [fold_left]. apply fold_blocks.
  - intros l1 l2. apply fold_blocks_app.
  - intros l1 l2. apply fold_blocks_app.
Qed.

Lemma prefix_here (x b : string) : String.prefix x (x ++ b) = true.
Proof.
  induction x as [|c x IH]; [destruct b; reflexivity|].
  cbn. destruct (ascii_dec c c) as [_|Hne]; [exact IH|now contradiction Hne].
Qed.

Lemma prefix_app_l (x : string) :
  forall a b : string, String.prefix x a = true -> String.prefix x (a ++ b) = true.
Proof.
  induction x as [|c x IH]; intros a b H.
  - destruct (a ++ b)%string; reflexivity.
  - destruct a as [|d a]; [discriminate H|]. cbn in *.
    destruct (ascii_dec c d); [now apply IH|discriminate H].
Qed.

Lemma contains_cons (x : string) (c : ascii) (hay : string) :
  Py.contains x (String c hay) = String.prefix x (String c hay) || Py.contains x hay.
Proof. reflexivity. Qed.

Lemma contains_app_l (x : string) :
  forall a b : string, Py.contains x a = true -> Py.contains x (a ++ b) = true.
Proof.
  induction a as [|c a IH]; intros b H.
  - change (Py.contains x "") with (String.prefix x "" || false) in H.
    rewrite orb_false_r in H.
    apply (prefix_app_l x "" b) in H. cbn [String.append] in *.
    destruct b as [|d b].
    + change (Py.contains x "") with (String.prefix x "" || false).
      now rewrite H.
    + rewrite contains_cons, H. reflexivity.
  - change (String c a ++ b)%string with (String c (a ++ b)).
    rewrite contains_cons in *. apply orb_true_iff in H. apply orb_true_iff.
    destruct H as [H|H]; [left|right].
    + now apply (prefix_app_l x (String c a) b) in H.
    + now apply IH.
Qed.

Lemma contains_app_r (x : string) :
  forall a b : string, Py.contains x b = true -> Py.contains x (a ++ b) = true.
Proof.
  induction a as [|c a IH]; intros b H; [exact H|].
  change (String c a ++ b)%string with (String c (a ++ b)).
  rewrite contains_cons, (IH b H). apply orb_true_r.
Qed.

Lemma contains_here (x b : string) : Py.contains x (x ++ b) = true.
Proof.
  destruct (x ++ b)%string eqn:E.
  - destruct x; [reflexivity|discriminate E].
  - rewrite contains_cons, <- E, prefix_here. reflexivity.
Qed.

Lemma contains_block (f : Headline -> string) (h : Headline) (items : list Headline) :
  In h items ->
  Py.contains (f h) (fold_left (fun html item => (html ++ f item)%string) items "")
  = true.
Proof.
  intro H. apply in_split in H. destruct H as (l1 & l2 & ->).
  rewrite fold_blocks_app. apply contains_app_r.
  cbn [fold_left]. rewrite fold_blocks. cbn [String.append]. apply contains_here.
Qed.

(** X9: the page shows every headline of the dictionary it is given: the
    block of the headline, with its link, its title and its source as they
    are stored, occurs in the page; a [breaking] headline as a featured
    block, any other as a news block. *)
Theorem page_shows_every_headline (hs : CategorySet) (now_est : DateTime)
    (c : Category) (h : Headline) :
  In h (lookup c hs) ->
  Py.contains (block c h) (generate_html hs now_est) = true.
Proof.
  intro H.
  assert (Hfmt : Py.contains (block c h)
                   (if Category_eqb c breaking
                    then format_featured (lookup c hs)
                    else format_items (lookup c hs)) = true).
  { destruct c; cbn [Category_eqb category_key String.eqb Ascii.eqb Bool.eqb block];
      now apply contains_block. }
  unfold generate_html, generate_html_dated.
  destruct c; cbn in Hfmt;
    repeat first [ apply contains_app_l; exact Hfmt | apply contains_app_r ].
Qed.

Lemma page_shows_every_headline_witness :
  let h := mkHeadline "Item 1" "#" "Crux" in
  let now_est := mkDateTime 2026 November 4 Wednesday 6 0 0 in
  In h (lookup world (fetch_headlines only_crux 2))
  /\ Py.contains (news_item h) (generate_html (fetch_headlines only_crux 2) now_est)
     = true.
Proof.
  cbv zeta.
  assert (H : In (mkHeadline "Item 1" "#" "Crux")
                 (lookup world (fetch_headlines only_crux 2))).
  { vm_compute. now left. }
  split; [exact H|].
  exact (page_shows_every_headline (fetch_headlines only_crux 2)
           (mkDateTime 2026 November 4 Wednesday 6 0 0) world _ H).
Defined.

(** ** A negative limit *)

(** X10: a negative [max_per_source] is not refused: the slice then leaves
    out the last [-max_per_source] entries of the feed, so a feed of [n]
    entries gives [n - (-max_per_source)] headlines from its front, none when
    the feed is that short. *)
Theorem negative_limit_drops_last_entries (fetch : Fetcher) (max_per_source : Z)
    (w : World) (source_name feed_url : string) (entries : list Entry) :
  (max_per_source < 0)%Z ->
  fetch feed_url = Feed entries ->
  let kept := List.length entries - Z.to_nat (- max_per_source) in
  let made := produced fetch max_per_source (source_name, feed_url) in
  let w' := process_source fetch max_per_source w (source_name, feed_url) in
  map snd made = map (make_headline source_name) (firstn kept entries)
  /\ List.length made = kept
  /\ total (headlines w') = total (headlines w) + kept.
Proof.
  intros Hneg Hfetch kept made w'.
  assert (Hmade : made = classified source_name (Py.enumerate (firstn kept entries))).
  { subst made kept. unfold produced. cbn [fst snd]. rewrite Hfetch.
    unfold Py.slice_to. apply Z.ltb_lt in Hneg. now rewrite Hneg. }
  assert (Hlen : List.length made = kept).
  { rewrite Hmade. unfold classified, Py.enumerate.
    rewrite length_map, length_enumerate_from, length_firstn. subst kept. lia. }
  split; [|split].
  - rewrite Hmade, map_snd_classified. unfold Py.enumerate.
    now rewrite map_snd_enumerate_from.
  - exact Hlen.
  - rewrite <- Hlen. apply total_extended. intro c. apply lookup_process_source.
Qed.

Lemma negative_limit_drops_last_entries_witness :
  (-2 < 0)%Z
  /\ only_crux "https://cruxnow.com/feed/" = Feed (numbered_entries 5)
  /\ map snd (produced only_crux (-2) ("Crux", "https://cruxnow.com/feed/"))
     = [mkHeadline "Item 1" "#" "Crux"; mkHeadline "Item 2" "#" "Crux";
        mkHeadline "Item 3" "#" "Crux"].
Proof.
  split; [lia|]. split; [reflexivity|].
  apply (negative_limit_drops_last_entries only_crux (-2) initial_world
           "Crux" "https://cruxnow.com/feed/" (numbered_entries 5));
    [lia|reflexivity].
Defined.

(** ** The printed lines *)

Lemma stdout_process_source_report (fetch : Fetcher) (max_per_source : Z)
    (w : World) (item : string * string) :
  stdout (process_source fetch max_per_source w item) = stdout w ++ report fetch item.
Proof.
  destruct item as [source_name feed_url]. unfold process_source, report.
  cbn [fst snd].
  destruct (fetch feed_url) as [message|[|entry entries]]; cbn;
    now rewrite <- ?app_assoc.
Qed.

Lemma stdout_collect_report (fetch : Fetcher) (max_per_source : Z) :
  forall (sources : list (string * string)) (w : World),
    stdout (collect sources fetch max_per_source w)
    = stdout w ++ flat_map (report fetch) sources.
Proof.
  unfold collect. induction sources as [|item sources IH]; intro w.
  - cbn. now rewrite app_nil_r.
  - cbn [fold_left flat_map]. rewrite IH, stdout_process_source_report.
    now rewrite app_assoc.
Qed.

Lemma stdout_run (sources : list (string * string)) (fetch : Fetcher)
    (max_per_source : Z) :
  stdout (run_fetch_headlines sources fetch max_per_source)
  = "Fetching headlines for ReadyCatholic..." :: flat_map (report fetch) sources.
Proof. cbn [run_fetch_headlines stdout]. now rewrite stdout_collect_report. Qed.

Lemma length_reports (fetch : Fetcher) (sources : list (string * string)) :
  List.length (flat_map (report fetch) sources)
  = List.length sources + List.length (filter (gives_nothing fetch) sources).
Proof.
  induction sources as [|item sources IH]; [reflexivity|].
  cbn [flat_map filter]. rewrite length_app, IH.
  unfold report, gives_nothing.
  destruct (fetch (snd item)) as [message|[|entry entries]]; cbn; lia.
Qed.

(** X11: the output of a run is the opening line, then for each source in
    order its fetching line, followed by an error line if the fetch raised or
    a warning line if the feed was empty; it does not depend on
    [max_per_source], so a feed with entries of which the limit keeps none is
    not reported. *)
Theorem output_reports_each_source :
  forall (sources : list (string * string)) (fetch : Fetcher) (max_per_source : Z),
    stdout (run_fetch_headlines sources fetch max_per_source)
    = "Fetching headlines for ReadyCatholic..."
      :: flat_map
           (fun item =>
              ("  Fetching from " ++ fst item ++ "...")%string
              :: match fetch (snd item) with
                 | Raises message =>
                     [("  Error fetching from " ++ fst item ++ ": " ++ message)%string]
                 | Feed [] =>
                     [("    Warning: No entries found for " ++ fst item)%string]
                 | Feed (_ :: _) => []
                 end)
           sources
    /\ List.length (stdout (run_fetch_headlines sources fetch max_per_source))
       = 1 + List.length sources + List.length (filter (gives_nothing fetch) sources)
    /\ forall other_limit : Z,
         stdout (run_fetch_headlines sources fetch other_limit)
         = stdout (run_fetch_headlines sources fetch max_per_source).
Proof.
  intros sources fetch max_per_source. split; [|split].
  - apply stdout_run.
  - rewrite stdout_run. cbn [List.length]. now rewrite length_reports.
  - intro other_limit. now rewrite !stdout_run.
Qed.

(** ** How much a run returns *)

Lemma length_produced (fetch : Fetcher) (max_per_source : Z) (item : string * string) :
  (0 <= max_per_source)%Z ->
  List.length (produced fetch max_per_source item) <= Z.to_nat max_per_source.
Proof.
  intro Hmax. unfold produced. destruct (fetch (snd item)) as [message|entries].
  - cbn. lia.
  - unfold classified, Py.enumerate.
    rewrite length_map, length_enumerate_from, slice_to_nonneg, length_firstn by exact Hmax.
    lia.
Qed.

Lemma length_flat_map_produced (fetch : Fetcher) (max_per_source : Z)
    (sources : list (string * string)) :
  (0 <= max_per_source)%Z ->
  List.length (flat_map (produced fetch max_per_source) sources)
  <= List.length sources * Z.to_nat max_per_source.
Proof.
  intro Hmax. induction sources as [|item sources IH]; [cbn; lia|].
  cbn [flat_map List.length]. rewrite length_app.
  pose proof (length_produced fetch max_per_source item Hmax). lia.
Qed.

(** X12: a run returns at most 95 headlines (5 and six times 15), and with
    a limit that is not negative at most [max_per_source] for each of the 21
    sources. *)
Theorem returned_size_bounds (fetch : Fetcher) (max_per_source : Z) :
  total (fetch_headlines fetch max_per_source) <= 95
  /\ ((0 <= max_per_source)%Z ->
      total (fetch_headlines fetch max_per_source) <= 21 * Z.to_nat max_per_source).
Proof.
  split.
  - unfold total, categories. cbn [map list_sum fold_right].
    rewrite !lookup_fetch_headlines, !length_firstn. cbn [cap]. lia.
  - intro Hmax.
    pose proof (length_flat_map_produced fetch max_per_source
                  CATHOLIC_NEWS_SOURCES Hmax) as Hall.
    rewrite <- total_buckets in Hall.
    change (List.length CATHOLIC_NEWS_SOURCES) with 21 in Hall.
    unfold total, categories in *. cbn [map list_sum fold_right] in *.
    rewrite !lookup_fetch_headlines, !length_firstn. lia.
Qed.

Lemma returned_size_bounds_witness :
  (0 <= 3)%Z /\ total (fetch_headlines vatican_down 3) <= 21 * Z.to_nat 3.
Proof.
  split; [lia|].
  apply (returned_size_bounds vatican_down 3). lia.
Defined.

(** ** [main] *)

Lemma flat_map_nothing_in {A B : Type} (f : A -> list B) (l : list A) :
  (forall x, In x l -> f x = []) -> flat_map f l = [].
Proof.
  induction l as [|x l IH]; intro H; [reflexivity|].
  cbn. rewrite (H x (or_introl eq_refl)), IH; [reflexivity|].
  intros y Hy. apply H. now right.
Qed.

Lemma nothing_fetched (fetch : Fetcher) (max_per_source : Z) :
  (forall item, In item CATHOLIC_NEWS_SOURCES -> gives_nothing fetch item = true) ->
  fetch_headlines fetch max_per_source = empty_headlines.
Proof.
  intro H. apply CategorySet_ext. intro c. rewrite lookup_fetch_headlines.
  rewrite flat_map_nothing_in.
  - destruct c; reflexivity.
  - intros item Hin. apply gives_nothing_produced. now apply H.
Qed.


(** X13: when every source fails or comes back empty, [main] still writes
    a page, the one of the empty dictionary, and ends on the success line. *)
Theorem main_with_every_source_down (env : Env) (file_before : option string)
    (now_est : DateTime) :
  (forall item, In item CATHOLIC_NEWS_SOURCES ->
                gives_nothing (env_fetch env) item = true) ->
  env_clock env = Reads now_est ->
  env_store env (generate_html empty_headlines now_est) = Stored ->
  index_html (main env file_before) = Some (generate_html empty_headlines now_est)
  /\ last (m_stdout (main env file_before)) "" = success_line.
Proof.
  intros Hdown Hclock Hstore. unfold main. rewrite Hclock.
  change (headlines (run_fetch_headlines CATHOLIC_NEWS_SOURCES (env_fetch env) 3))
    with (fetch_headlines (env_fetch env) 3).
  rewrite (nothing_fetched _ 3 Hdown), Hstore. cbn [index_html m_stdout].
  split; [reflexivity|apply last_last].
Qed.

Lemma main_with_every_source_down_witness :
  index_html (main (good_env all_down) None)
  = Some (generate_html empty_headlines (mkDateTime 2026 November 4 Wednesday 6 0 0)).
Proof.
  apply (main_with_every_source_down (good_env all_down) None
           (mkDateTime 2026 November 4 Wednesday 6 0 0)).
  - intros item _. reflexivity.
  - reflexivity.
  - reflexivity.
Defined.


